(** * go-gorm-unit-of-work: the transaction context and the connection holder

    A shallow embedding of package [postgres]:
    - [transaction_context.go]: [Begin], [Provider], [Commit], [Rollback] and
      their helpers on [transactionContext];
    - [connect.go]: [Open], [NewConnect], [CheckConnection] and the two
      settings functions;
    - [db_holder.go]: [NewDBHolderInstance], [NewDBHolder] and the package
      variables [dbHolder] and [onceDBHolder];
    - [config.go]: [PgConfig].

    Conventions.
    - A pointer the code compares with [nil] is an [option]
      ([tx], [transactionUUID], the result of [Provider], the package
      variable [dbHolder], the [*PgConfig] argument).  A pointer the methods
      of [transactionContext] follow without a test ([c.dbHolder] and its
      [dbConnection]) is the value it points to; [Module Ptr] gives the
      methods once more with [c.dbHolder] as a pointer that may be nil, for
      the contexts made after the holder could not be set up.
    - gorm, database/sql, google/uuid, the logger and the clock are
      libraries outside the package.  They are a [World]: what each of their
      calls answers is read from an oracle indexed by the number of calls
      made so far, and every call is recorded, so that a property ranges
      over all their behaviours and that no database operation took place
      is a statement about the record.
    - A method with a pointer receiver takes the receiver's value and gives
      back the new one. *)

From Stdlib Require Import String Ascii List Bool Arith NArith ZArith Lia.
Import ListNotations.
Open Scope string_scope.

(* ------------------------------------------------------------------ *)
(** ** Values of the libraries *)

(** [uuid.UUID] is [[16]byte]; it is carried as the number its sixteen bytes
    spell.  The code only compares identifiers. *)
Definition UUID := N.

(** [uuid.Nil], the zero value of the array. *)
Definition Nil : UUID := 0%N.

(** Go's [error] values: the two the package declares, and those handed up
    by a library (the driver, the entropy source). *)
Inductive error : Type :=
| ErrTxWasRollbacked
| ErrNotInTransaction
| ErrLibrary (msg : string).

(** A [log.Logger]: the sink it writes to. *)
Definition Logger := nat.

Inductive level : Type := LvlDebug | LvlInfo | LvlError | LvlFatal.

(** [config.go] *)
Record PgConfig : Type := mkPgConfig {
  Host : string;
  DBName : string;
  Schema : string;
  User : string;
  Password : string;
  MaxOpenConnections : Z;
  ConnectionMaxLifetimeMS : Z;
  LogMode : bool;
  SSLMode : string
}.

(** A [gorm.DB] handle.  [sqlObj] names the [sql.DB] or [sql.Tx] behind it
    (the index of the driver call that made it), [isTx] tells which of the
    two it is.  The three settings are the values last given to
    [SetMaxOpenConns], [SetConnMaxLifetime] and [LogMode]. *)
Record DB : Type := mkDB {
  sqlObj : nat;
  isTx : bool;
  Error : option error;
  dbLogger : option Logger;
  logMode : bool;
  maxOpenConns : Z;
  connMaxLifetime : Z
}.

Definition withError (e : option error) (d : DB) : DB :=
  mkDB (sqlObj d) (isTx d) e (dbLogger d) (logMode d) (maxOpenConns d)
       (connMaxLifetime d).

(** What the driver was asked to do. *)
Inductive sqlEvent : Type :=
| SqlOpen (dsn : string)
| SqlBegin (on : nat)
| SqlCommit (on : nat)
| SqlRollback (on : nat)
| SqlExec (on : nat) (query : string).

(* ------------------------------------------------------------------ *)
(** ** The world outside the package *)

Record World : Type := mkWorld {
  entropy : nat -> UUID + error;          (* answer of the k-th uuid.NewRandom *)
  driver : nat -> option error;           (* answer of the k-th driver call *)
  drawn : nat;                            (* uuid.NewRandom calls so far *)
  sqlLog : list (sqlEvent * option error);(* driver calls so far, latest first *)
  logged : list (Logger * level * string);(* logger output, latest first *)
  slept : nat;                            (* seconds spent in time.Sleep *)
  fatalExits : bool                       (* does the logger's Fatalf end the process *)
}.

(** One logger call.  The format string is recorded, not its arguments. *)
Definition logf (lvl : level) (l : Logger) (fmt : string) (w : World) : World :=
  mkWorld (entropy w) (driver w) (drawn w) (sqlLog w)
          ((l, lvl, fmt) :: logged w) (slept w) (fatalExits w).

(** [uuid.NewRandom()]: an identifier, or [Nil] and an error. *)
Definition NewRandom (w : World) : UUID * option error * World :=
  let w' := mkWorld (entropy w) (driver w) (S (drawn w)) (sqlLog w)
                    (logged w) (slept w) (fatalExits w) in
  match entropy w (drawn w) with
  | inl id => (id, None, w')
  | inr e => (Nil, Some e, w')
  end.

(** [time.Sleep(n * time.Second)] *)
Definition Sleep (n : nat) (w : World) : World :=
  mkWorld (entropy w) (driver w) (drawn w) (sqlLog w) (logged w) (n + slept w)
          (fatalExits w).

(** One call into the driver: its answer is the oracle's at the current
    index, and the call joins the record. *)
Definition driverCall (ev : sqlEvent) (w : World) : option error * World :=
  let r := driver w (length (sqlLog w)) in
  (r, mkWorld (entropy w) (driver w) (drawn w) ((ev, r) :: sqlLog w)
              (logged w) (slept w) (fatalExits w)).

(** What the driver will answer to the next call. *)
Definition nextAnswer (w : World) : option error :=
  driver w (length (sqlLog w)).

(** [db.Begin()]: a new handle, never nil, on a new [sql.Tx]; what the driver
    answered is in its [Error]. *)
Definition gormBegin (d : DB) (w : World) : DB * World :=
  let k := length (sqlLog w) in
  let '(r, w') := driverCall (SqlBegin (sqlObj d)) w in
  (mkDB k true r (dbLogger d) (logMode d) (maxOpenConns d) (connMaxLifetime d),
   w').

(** [tx.Commit()]: the handle with the driver's answer in [Error]. *)
Definition gormCommit (t : DB) (w : World) : DB * World :=
  let '(r, w') := driverCall (SqlCommit (sqlObj t)) w in (withError r t, w').

(** [tx.Rollback()] *)
Definition gormRollback (t : DB) (w : World) : DB * World :=
  let '(r, w') := driverCall (SqlRollback (sqlObj t)) w in (withError r t, w').

(** [db.Exec(query)] *)
Definition gormExec (d : DB) (query : string) (w : World) : DB * World :=
  let '(r, w') := driverCall (SqlExec (sqlObj d) query) w in (withError r d, w').

(* ------------------------------------------------------------------ *)
(** ** [db_holder.go]: the holder type *)

Record DatabaseHolder : Type := mkDatabaseHolder {
  dbConnection : DB
}.

(* ------------------------------------------------------------------ *)
(** ** [transaction_context.go] *)

Record transactionContext : Type := mkTransactionContext {
  logger : Logger;
  dbHolder : DatabaseHolder;
  tx : option DB;
  transactionUUID : option UUID;
  rollbacked : bool
}.

(** [newTransactionContext]: the fields not named in the literal are zero. *)
Definition newTransactionContext (l : Logger) (h : DatabaseHolder)
  : transactionContext :=
  mkTransactionContext l h None None false.

(** [c.tx != nil && c.transactionUUID != nil] *)
Definition inTransaction (c : transactionContext) : bool :=
  match tx c with
  | Some _ => match transactionUUID c with Some _ => true | None => false end
  | None => false
  end.

Definition wasRollbacked (c : transactionContext) : bool := rollbacked c.

Definition providerWithoutTransaction (c : transactionContext) : option DB :=
  Some (dbConnection (dbHolder c)).

(** [dispose]: logs, then clears the handle and the identifier. *)
Definition dispose (c : transactionContext) (w : World)
  : transactionContext * World :=
  let w1 := logf LvlDebug (logger c) "disposing transaction (%v)" w in
  (mkTransactionContext (logger c) (dbHolder c) None None (rollbacked c), w1).

Definition disposeAfterRollback (c : transactionContext) (w : World)
  : transactionContext * World :=
  dispose (mkTransactionContext (logger c) (dbHolder c) (tx c)
             (transactionUUID c) true) w.

(** [Begin].  The results are the named [id] and [err], zero at entry. *)
Definition Begin (c : transactionContext) (w : World)
  : (UUID * option error) * transactionContext * World :=
  if wasRollbacked c then ((Nil, Some ErrTxWasRollbacked), c, w)
  else
    let '(id, err, w1) := NewRandom w in
    match err with
    | Some _ => ((id, err), c, w1)
    | None =>
        if negb (inTransaction c) then
          let '(t, w2) := gormBegin (dbConnection (dbHolder c)) w1 in
          let c' := mkTransactionContext (logger c) (dbHolder c) (Some t)
                      (Some id) (rollbacked c) in
          match Error t with
          | Some e =>
              ((id, Some e), c',
               logf LvlError (logger c) "cannot begin transaction (%v)" w2)
          | None =>
              ((id, None), c',
               logf LvlDebug (logger c) "new transaction: %v" w2)
          end
        else
          ((id, None), c,
           logf LvlDebug (logger c) "use existing transaction: %v" w1)
    end.

(** [Provider] *)
Definition Provider (c : transactionContext) (w : World) : option DB * World :=
  if wasRollbacked c then
    (None, logf LvlError (logger c) "transaction has been rolled back!" w)
  else if inTransaction c then (tx c, w)
  else (providerWithoutTransaction c, w).

(** [Commit].  The deferred [dispose] runs once the result is fixed.  The
    last branch of the [match] is behind the [inTransaction] test and is
    never taken ([inTransaction_spec]). *)
Definition Commit (id : UUID) (c : transactionContext) (w : World)
  : option error * transactionContext * World :=
  if wasRollbacked c then (Some ErrTxWasRollbacked, c, w)
  else if negb (inTransaction c) then (Some ErrNotInTransaction, c, w)
  else
    match transactionUUID c, tx c with
    | Some owner, Some t =>
        if negb (N.eqb owner id) then (None, c, w)
        else
          let '(t', w1) := gormCommit t w in
          match Error t' with
          | Some err =>
              let w2 := logf LvlError (logger c)
                          "cannot commit transaction: %v; err: %s" w1 in
              let '(c', w3) := dispose c w2 in
              (Some err, c', w3)
          | None =>
              let '(c', w3) := dispose c w1 in
              (None, c', w3)
          end
    | _, _ => (Some ErrNotInTransaction, c, w)
    end.

(** [Rollback].  The deferred [disposeAfterRollback] runs once the result is
    fixed; the last branch is never taken, as in [Commit]. *)
Definition Rollback (c : transactionContext) (w : World)
  : option error * transactionContext * World :=
  if wasRollbacked c then (Some ErrTxWasRollbacked, c, w)
  else if negb (inTransaction c) then
    (None, c, logf LvlDebug (logger c) "no active transaction to roll back" w)
  else
    match tx c with
    | Some t =>
        let '(t', w1) := gormRollback t w in
        match Error t' with
        | Some err =>
            let w2 := logf LvlError (logger c) "cannot rollback (%v): %s" w1 in
            let '(c', w3) := disposeAfterRollback c w2 in
            (Some err, c', w3)
        | None =>
            let '(c', w3) := disposeAfterRollback c w1 in
            (None, c', w3)
        end
    | None =>
        (None, c, logf LvlDebug (logger c) "no active transaction to roll back" w)
    end.

(** The three-way test every method starts with: [wasRollbacked] first, then
    [inTransaction]. *)
Inductive State : Type := Idle | Active | RolledBack.

Definition state (c : transactionContext) : State :=
  if wasRollbacked c then RolledBack
  else if inTransaction c then Active
  else Idle.

(** The interface [ITransactionContext], as calls and what they give back. *)
Inductive call : Type :=
| CallBegin
| CallProvider
| CallCommit (id : UUID)
| CallRollback.

Inductive reply : Type :=
| BeginReply (id : UUID) (err : option error)
| ProviderReply (db : option DB)
| ErrorReply (err : option error).

Definition invoke (op : call) (c : transactionContext) (w : World)
  : reply * transactionContext * World :=
  match op with
  | CallBegin =>
      let '((id, err), c', w') := Begin c w in (BeginReply id err, c', w')
  | CallProvider =>
      let '(db, w') := Provider c w in (ProviderReply db, c, w')
  | CallCommit id =>
      let '(err, c', w') := Commit id c w in (ErrorReply err, c', w')
  | CallRollback =>
      let '(err, c', w') := Rollback c w in (ErrorReply err, c', w')
  end.

Definition after (op : call) (c : transactionContext) (w : World)
  : transactionContext :=
  snd (fst (invoke op c w)).

(** A run of calls on one context, the world threaded through. *)
Fixpoint run (ops : list call) (c : transactionContext) (w : World)
  : list reply * transactionContext * World :=
  match ops with
  | [] => ([], c, w)
  | op :: rest =>
      let '(r, c1, w1) := invoke op c w in
      let '(rs, c2, w2) := run rest c1 w1 in
      (r :: rs, c2, w2)
  end.

(** [evolves c c']: some calls lead from [c] to [c'], whatever the libraries
    do and whatever else happens in the world between two calls. *)
Inductive evolves (c : transactionContext) : transactionContext -> Prop :=
| evolves_here : evolves c c
| evolves_call (c' : transactionContext) (op : call) (w : World) :
    evolves c c' -> evolves c (after op c' w).

(** The contexts a program can hold: made by [newTransactionContext], then
    used through the interface. *)
Definition reachable (c : transactionContext) : Prop :=
  exists l h, evolves (newTransactionContext l h) c.

(** Invariant A: handle and identifier are both there or both absent. *)
Definition paired (c : transactionContext) : Prop :=
  (tx c = None /\ transactionUUID c = None) \/
  (tx c <> None /\ transactionUUID c <> None).

Definition pairedb (c : transactionContext) : bool :=
  match tx c, transactionUUID c with
  | None, None => true
  | Some _, Some _ => true
  | _, _ => false
  end.

(** The rollbacks among the calls the driver has recorded. *)
Definition isRollback (e : sqlEvent * option error) : bool :=
  match fst e with SqlRollback _ => true | _ => false end.

(** Connections opened: the [SqlOpen] calls the driver answered without an
    error. *)
Definition isOpened (e : sqlEvent * option error) : bool :=
  match e with
  | (SqlOpen _, None) => true
  | _ => false
  end.

Definition opened (w : World) : nat := length (filter isOpened (sqlLog w)).

(* ------------------------------------------------------------------ *)
(** ** [connect.go] *)

Definition defaultConnectionNumberOfRetries : nat := 8.
Definition defaultConnectionSecondsBetweenRetries : nat := 4.

(** How a call ends: it returns, it panics with a value, or the process is
    gone. *)
Inductive Outcome (A : Type) : Type :=
| Returns (a : A)
| Panics (v : error)
| Exits.
Arguments Returns {A} a.
Arguments Panics {A} v.
Arguments Exits {A}.

(** The run-time panic of a nil dereference. *)
Definition nilDereference : error :=
  ErrLibrary "invalid memory address or nil pointer dereference".

(** [log.FromDefaultContext()] *)
Definition FromDefaultContext : Logger := 0.

(** Go's [int64] product, wrapped. *)
Definition wrap64 (z : Z) : Z :=
  ((z + 2 ^ 63) mod 2 ^ 64 - 2 ^ 63)%Z.

Definition Millisecond : Z := 1000000%Z.

Definition setGORMSettings (db : DB) (pgConfig : PgConfig) : DB :=
  mkDB (sqlObj db) (isTx db) (Error db) (dbLogger db) (LogMode pgConfig)
       (maxOpenConns db) (connMaxLifetime db).

Definition setSQLSettings (db : DB) (pgConfig : PgConfig) : DB :=
  mkDB (sqlObj db) (isTx db) (Error db) (dbLogger db) (logMode db)
       (MaxOpenConnections pgConfig)
       (wrap64 (wrap64 (ConnectionMaxLifetimeMS pgConfig) * Millisecond)).

Definition SetLogger (l : Logger) (db : DB) : DB :=
  mkDB (sqlObj db) (isTx db) (Error db) (Some l) (logMode db)
       (maxOpenConns db) (connMaxLifetime db).

Definition nl : string := String (ascii_of_nat 10) "".
Definition tab : string := String (ascii_of_nat 9) "".

Definition dsnLine (key value : string) : string :=
  nl ++ tab ++ tab ++ tab ++ key ++ "=" ++ value.

(** The [fmt.Sprintf] of [Open]; [SSLMode] is not read. *)
Definition connectionString (cfg : PgConfig) : string :=
  dsnLine "host" (Host cfg) ++ dsnLine "user" (User cfg) ++
  dsnLine "password" (Password cfg) ++ dsnLine "dbname" (DBName cfg) ++
  dsnLine "search_path" (Schema cfg) ++ dsnLine "sslmode" "disable" ++
  nl ++ tab ++ tab.

(** [gorm.Open("postgres", dsn)]: a handle, never nil for a string source,
    and the driver's answer. *)
Definition gormOpen (dsn : string) (w : World) : DB * option error * World :=
  let k := length (sqlLog w) in
  let '(r, w') := driverCall (SqlOpen dsn) w in
  (mkDB k false None None false 0%Z 0%Z, r, w').

(** The loop of [Open]: one pass of the body, then [more] further passes.
    [Open] starts it with one pass fewer than
    [defaultConnectionNumberOfRetries], which is not zero, so the body runs
    at least once and [db] is a handle when the loop is left.  A nil [cfg]
    is dereferenced by the first statement of the body.  After the loop,
    [Fatalf] either ends the process or comes back, and then [Open] returns
    the last handle and error. *)
Fixpoint OpenLoop (more : nat) (cfg : option PgConfig) (lg : Logger) (w : World)
  : Outcome (DB * option error) * World :=
  match cfg with
  | None => (Panics nilDereference, w)
  | Some cf =>
      let w1 := logf LvlInfo lg
                  "Connecting to postgres %s@%s... (retry %d of %d)" w in
      let '(db, err, w2) := gormOpen (connectionString cf) w1 in
      match err with
      | Some e =>
          let w3 := logf LvlError lg
                      "Connecting to postgres %s@%s FAILED: %s" w2 in
          let w4 := Sleep defaultConnectionSecondsBetweenRetries w3 in
          match more with
          | S more' => OpenLoop more' cfg lg w4
          | O =>
              let w5 := logf LvlFatal lg
                          "Connecting to postgres %s@%s FAILED" w4 in
              if fatalExits w5 then (Exits, w5)
              else (Returns (db, Some e), w5)
          end
      | None =>
          let db1 := SetLogger lg db in
          let w3 := logf LvlInfo lg
                      "Successfully connected to postgres %s@%s" w2 in
          let db2 := setSQLSettings db1 cf in
          let db3 := setGORMSettings db2 cf in
          (Returns (db3, None), w3)
      end
  end.

Definition Open (cfg : option PgConfig) (w : World)
  : Outcome (DB * option error) * World :=
  OpenLoop (defaultConnectionNumberOfRetries - 1) cfg FromDefaultContext w.

Definition NewConnect (config : option PgConfig) (w : World)
  : Outcome DB * World :=
  let lg := FromDefaultContext in
  match Open config w with
  | (Returns (db, Some err), w1) =>
      (Panics err,
       logf LvlInfo lg "can't connect to db (connect error): %v" w1)
  | (Returns (db, None), w1) => (Returns db, w1)
  | (Panics v, w1) => (Panics v, w1)
  | (Exits, w1) => (Exits, w1)
  end.

Definition CheckConnection (db : DB) (w : World) : World :=
  snd (gormExec db "SELECT 1;" w).

(* ------------------------------------------------------------------ *)
(** ** [db_holder.go] *)

(** The package variables of [db_holder.go] and [transaction_context.go].
    [dbHolder] is a pointer: the address of a holder, or nil.
    [onceDBHolder] is the [sync.Once]: whether its function has been run. *)
Module Package.

Record vars : Type := mkVars {
  dbHolder : option nat;
  onceDBHolder : bool;
  DbConfig : option PgConfig
}.

End Package.

(** A process: the package variables, the holders allocated so far (a
    holder's address is its index) and the world. *)
Record Process : Type := mkProcess {
  pkg : Package.vars;
  holders : list DatabaseHolder;
  world : World
}.

(** The process at start: every package variable is zero. *)
Definition start (w : World) : Process :=
  mkProcess (Package.mkVars None false None) [] w.

(** [&DatabaseHolder{db}]: a new holder at a new address. *)
Definition NewDBHolder (db : DB) (p : Process) : option nat * Process :=
  (Some (length (holders p)),
   mkProcess (pkg p) (holders p ++ [mkDatabaseHolder db]) (world p)).

(** [onceDBHolder.Do(f)]: [f] runs if no call of [Do] has run it before, and
    the [sync.Once] is marked when [f] is left, also by a panic. *)
Definition onceDo (f : Process -> Outcome unit * Process) (p : Process)
  : Outcome unit * Process :=
  if Package.onceDBHolder (pkg p) then (Returns tt, p)
  else
    let '(r, p') := f p in
    (r, mkProcess (Package.mkVars (Package.dbHolder (pkg p')) true
                     (Package.DbConfig (pkg p')))
          (holders p') (world p')).

Definition NewDBHolderInstance (config : option PgConfig) (p : Process)
  : Outcome (option nat) * Process :=
  let '(r, p') :=
    onceDo (fun p0 =>
      match NewConnect config (world p0) with
      | (Returns connect, w1) =>
          let '(h, p1) :=
            NewDBHolder connect (mkProcess (pkg p0) (holders p0) w1) in
          (Returns tt,
           mkProcess (Package.mkVars h (Package.onceDBHolder (pkg p1))
                        (Package.DbConfig (pkg p1)))
             (holders p1) (world p1))
      | (Panics v, w1) => (Panics v, mkProcess (pkg p0) (holders p0) w1)
      | (Exits, w1) => (Exits, mkProcess (pkg p0) (holders p0) w1)
      end) p in
  match r with
  | Returns _ => (Returns (Package.dbHolder (pkg p')), p')
  | Panics v => (Panics v, p')
  | Exits => (Exits, p')
  end.

(** Calls of [NewDBHolderInstance] one after the other, as long as they
    return. *)
Fixpoint instances (configs : list (option PgConfig)) (p : Process)
  : list (Outcome (option nat)) * Process :=
  match configs with
  | [] => ([], p)
  | config :: rest =>
      let '(r, p1) := NewDBHolderInstance config p in
      match r with
      | Returns _ =>
          let '(rs, p2) := instances rest p1 in (r :: rs, p2)
      | _ => ([r], p1)
      end
  end.

(* ------------------------------------------------------------------ *)
(** ** Sample values *)

(** A world whose k-th identifier is [k + 1] and whose driver answers as
    [d] says. *)
Definition worldWith (d : nat -> option error) : World :=
  mkWorld (fun k => inl (N.of_nat (S k))) d 0 [] [] 0 true.

Definition calm : World := worldWith (fun _ => None).

Definition connectionLost : error := ErrLibrary "driver: bad connection".

(** The driver fails its k-th call and no other. *)
Definition failsAt (k : nat) : World :=
  worldWith (fun i => if Nat.eqb i k then Some connectionLost else None).

(** The driver fails every call before the k-th. *)
Definition failsBefore (k : nat) : World :=
  worldWith (fun i => if Nat.ltb i k then Some connectionLost else None).

(** The generator's source runs dry. *)
Definition noEntropy : World :=
  mkWorld (fun _ => inr (ErrLibrary "unexpected EOF")) (fun _ => None)
          0 [] [] 0 true.

(** The driver refuses every call, and the logger's [Fatalf] comes back. *)
Definition refusing : World :=
  mkWorld (fun k => inl (N.of_nat (S k))) (fun _ => Some connectionLost)
          0 [] [] 0 false.

Definition sampleConfig : PgConfig :=
  mkPgConfig "localhost" "testdb" "public" "testuser" "testpassword"
             5%Z 60000%Z true "require".

Definition otherConfig : PgConfig :=
  mkPgConfig "replica" "otherdb" "audit" "reader" "secret"
             1%Z 1000%Z false "disable".

Definition sampleHolder : DatabaseHolder :=
  mkDatabaseHolder (mkDB 0 false None (Some 0) true 5%Z 60000000000%Z).

Definition fresh : transactionContext := newTransactionContext 0 sampleHolder.

(** [fresh] after one [Begin] in the world [w]. *)
Definition begun (w : World) : transactionContext := after CallBegin fresh w.
Definition begunWorld (w : World) : World := snd (Begin fresh w).

(* ------------------------------------------------------------------ *)
(** ** Counting what the driver was asked *)

Definition isBegin (e : sqlEvent * option error) : bool :=
  match fst e with SqlBegin _ => true | _ => false end.

(** A commit or a rollback: either ends a transaction. *)
Definition isEnd (e : sqlEvent * option error) : bool :=
  match fst e with
  | SqlCommit _ => true
  | SqlRollback _ => true
  | _ => false
  end.

(** An attempt to connect, whatever the driver answered. *)
Definition isAttempt (e : sqlEvent * option error) : bool :=
  match fst e with SqlOpen _ => true | _ => false end.

Definition begins (w : World) : nat := length (filter isBegin (sqlLog w)).
Definition ends (w : World) : nat := length (filter isEnd (sqlLog w)).
Definition attempts (w : World) : nat := length (filter isAttempt (sqlLog w)).

(** The transactions a context holds: one when [inTransaction], else none. *)
Definition held (c : transactionContext) : nat :=
  if inTransaction c then 1 else 0.

(** The driver refuses the next [n] calls. *)
Definition refusesNext (n : nat) (w : World) : Prop :=
  forall j : nat, j < n -> driver w (length (sqlLog w) + j) <> None.

(** [PgConfig] with another [SSLMode]. *)
Definition withSSLMode (mode : string) (cfg : PgConfig) : PgConfig :=
  mkPgConfig (Host cfg) (DBName cfg) (Schema cfg) (User cfg) (Password cfg)
             (MaxOpenConnections cfg) (ConnectionMaxLifetimeMS cfg)
             (LogMode cfg) mode.

(* ------------------------------------------------------------------ *)
(** ** [GetTransactionContext]: the context carried along the calls *)

(** A key of a [context.Context].  Two keys are equal when they have the same
    type and the same value: [contextKey] is the package's own string type,
    [foreignKey] is a key of any other type. *)
Inductive key : Type :=
| contextKey (s : string)
| foreignKey (s : string).

Definition TransactionContextKey : key := contextKey "TransactionContextKey".

Definition key_eqb (a b : key) : bool :=
  match a, b with
  | contextKey s, contextKey t => String.eqb s t
  | foreignKey s, foreignKey t => String.eqb s t
  | _, _ => false
  end.

(** A value that implements [ITransactionContext]: a [*transactionContext],
    known by its address, or another implementation such as the generated
    mock. *)
Inductive ITransactionContext : Type :=
| ownContext (address : nat)
| otherImplementation (name : string).

(** A value stored in a [context.Context]: one on which the assertion
    [.(ITransactionContext)] holds, or any other. *)
Inductive value : Type :=
| implements (i : ITransactionContext)
| anyOther (s : string).

(** A [context.Context]: the bindings made by [context.WithValue], the
    latest first; [context.Background()] has none. *)
Definition Context := list (key * value).

Definition WithValue (ctx : Context) (k : key) (v : value) : Context :=
  (k, v) :: ctx.

(** [ctx.Value(k)]: the latest binding of [k], nil when there is none. *)
Fixpoint Value (ctx : Context) (k : key) : option value :=
  match ctx with
  | [] => None
  | (k', v) :: parent => if key_eqb k k' then Some v else Value parent k
  end.

(** A [*transactionContext] as [newTransactionContext] makes it: its logger
    and the holder pointer it was given; its other fields are zero. *)
Record txObject : Type := mkTxObject {
  objLogger : Logger;
  objHolder : option nat
}.

(** A program: the process and the transaction contexts made so far (the
    address of a context is its index). *)
Record Program : Type := mkProgram {
  proc : Process;
  txObjects : list txObject
}.

(** The context at an address as it was made, when its holder pointer is the
    address of a holder. *)
Definition contextAt (g : Program) (a : nat) : option transactionContext :=
  match nth_error (txObjects g) a with
  | Some o =>
      match objHolder o with
      | Some ha =>
          option_map (newTransactionContext (objLogger o))
                     (nth_error (holders (proc g)) ha)
      | None => None
      end
  | None => None
  end.

Section Propagation.

(** [log.FromContext], of the logger library. *)
Variable FromContext : Context -> Logger.

Definition getTransactionContextWithDBHolder (ctx : Context) (g : Program)
  : Outcome (ITransactionContext * Context) * Program :=
  match Value ctx TransactionContextKey with
  | Some (implements found) => (Returns (found, ctx), g)
  | _ =>
      let lg := FromContext ctx in
      match NewDBHolderInstance (Package.DbConfig (pkg (proc g))) (proc g) with
      | (Returns h, p1) =>
          let a := length (txObjects g) in
          let newContext :=
            WithValue ctx TransactionContextKey (implements (ownContext a)) in
          (Returns (ownContext a, newContext),
           mkProgram p1 (txObjects g ++ [mkTxObject lg h]))
      | (Panics v, p1) => (Panics v, mkProgram p1 (txObjects g))
      | (Exits, p1) => (Exits, mkProgram p1 (txObjects g))
      end
  end.

Definition GetTransactionContext (ctx : Context) (g : Program)
  : Outcome (ITransactionContext * Context) * Program :=
  getTransactionContextWithDBHolder ctx g.

End Propagation.

(** A program whose package variable [DbConfig] has been set, before any
    holder or context is made. *)
Definition configured (cfg : option PgConfig) (w : World) : Program :=
  mkProgram (mkProcess (Package.mkVars None false cfg) [] w) [].

(* ------------------------------------------------------------------ *)
(** ** The transaction context with its holder as a pointer *)

(** [transaction_context.go] once more, now with the field [dbHolder] as the
    pointer the source declares: nil, or a holder.  The methods that follow
    the pointer panic when it is nil, so every method gives an [Outcome];
    after a panic the context is what the statements before it have made of
    it.  With a holder behind the pointer the methods are those above
    ([pointer_methods_agree]). *)
Module Ptr.

Record transactionContext : Type := mkTransactionContext {
  logger : Logger;
  dbHolder : option DatabaseHolder;
  tx : option DB;
  transactionUUID : option UUID;
  rollbacked : bool
}.

Definition newTransactionContext (l : Logger) (h : option DatabaseHolder)
  : transactionContext :=
  mkTransactionContext l h None None false.

Definition inTransaction (c : transactionContext) : bool :=
  match tx c with
  | Some _ => match transactionUUID c with Some _ => true | None => false end
  | None => false
  end.

Definition wasRollbacked (c : transactionContext) : bool := rollbacked c.

(** [return c.dbHolder.dbConnection] *)
Definition providerWithoutTransaction (c : transactionContext)
  : Outcome (option DB) :=
  match dbHolder c with
  | Some h => Returns (Some (dbConnection h))
  | None => Panics nilDereference
  end.

Definition dispose (c : transactionContext) (w : World)
  : transactionContext * World :=
  let w1 := logf LvlDebug (logger c) "disposing transaction (%v)" w in
  (mkTransactionContext (logger c) (dbHolder c) None None (rollbacked c), w1).

Definition disposeAfterRollback (c : transactionContext) (w : World)
  : transactionContext * World :=
  dispose (mkTransactionContext (logger c) (dbHolder c) (tx c)
             (transactionUUID c) true) w.

(** [Begin]: line 121 stores the identifier, then line 122 follows
    [c.dbHolder]. *)
Definition Begin (c : transactionContext) (w : World)
  : Outcome (UUID * option error) * transactionContext * World :=
  if wasRollbacked c then (Returns (Nil, Some ErrTxWasRollbacked), c, w)
  else
    let '(id, err, w1) := NewRandom w in
    match err with
    | Some _ => (Returns (id, err), c, w1)
    | None =>
        if negb (inTransaction c) then
          let c1 := mkTransactionContext (logger c) (dbHolder c) (tx c)
                      (Some id) (rollbacked c) in
          match dbHolder c with
          | None => (Panics nilDereference, c1, w1)
          | Some h =>
              let '(t, w2) := gormBegin (dbConnection h) w1 in
              let c2 := mkTransactionContext (logger c) (dbHolder c) (Some t)
                          (Some id) (rollbacked c) in
              match Error t with
              | Some e =>
                  (Returns (id, Some e), c2,
                   logf LvlError (logger c) "cannot begin transaction (%v)" w2)
              | None =>
                  (Returns (id, None), c2,
                   logf LvlDebug (logger c) "new transaction: %v" w2)
              end
          end
        else
          (Returns (id, None), c,
           logf LvlDebug (logger c) "use existing transaction: %v" w1)
    end.

Definition Provider (c : transactionContext) (w : World)
  : Outcome (option DB) * World :=
  if wasRollbacked c then
    (Returns None,
     logf LvlError (logger c) "transaction has been rolled back!" w)
  else if inTransaction c then (Returns (tx c), w)
  else (providerWithoutTransaction c, w).

Definition Commit (id : UUID) (c : transactionContext) (w : World)
  : Outcome (option error) * transactionContext * World :=
  if wasRollbacked c then (Returns (Some ErrTxWasRollbacked), c, w)
  else if negb (inTransaction c) then (Returns (Some ErrNotInTransaction), c, w)
  else
    match transactionUUID c, tx c with
    | Some owner, Some t =>
        if negb (N.eqb owner id) then (Returns None, c, w)
        else
          let '(t', w1) := gormCommit t w in
          match Error t' with
          | Some err =>
              let w2 := logf LvlError (logger c)
                          "cannot commit transaction: %v; err: %s" w1 in
              let '(c', w3) := dispose c w2 in
              (Returns (Some err), c', w3)
          | None =>
              let '(c', w3) := dispose c w1 in
              (Returns None, c', w3)
          end
    | _, _ => (Returns (Some ErrNotInTransaction), c, w)
    end.

Definition Rollback (c : transactionContext) (w : World)
  : Outcome (option error) * transactionContext * World :=
  if wasRollbacked c then (Returns (Some ErrTxWasRollbacked), c, w)
  else if negb (inTransaction c) then
    (Returns None, c,
     logf LvlDebug (logger c) "no active transaction to roll back" w)
  else
    match tx c with
    | Some t =>
        let '(t', w1) := gormRollback t w in
        match Error t' with
        | Some err =>
            let w2 := logf LvlError (logger c) "cannot rollback (%v): %s" w1 in
            let '(c', w3) := disposeAfterRollback c w2 in
            (Returns (Some err), c', w3)
        | None =>
            let '(c', w3) := disposeAfterRollback c w1 in
            (Returns None, c', w3)
        end
    | None =>
        (Returns None, c,
         logf LvlDebug (logger c) "no active transaction to roll back" w)
    end.

Definition invoke (op : call) (c : transactionContext) (w : World)
  : Outcome reply * transactionContext * World :=
  match op with
  | CallBegin =>
      match Begin c w with
      | (Returns (id, err), c', w') => (Returns (BeginReply id err), c', w')
      | (Panics v, c', w') => (Panics v, c', w')
      | (Exits, c', w') => (Exits, c', w')
      end
  | CallProvider =>
      match Provider c w with
      | (Returns db, w') => (Returns (ProviderReply db), c, w')
      | (Panics v, w') => (Panics v, c, w')
      | (Exits, w') => (Exits, c, w')
      end
  | CallCommit id =>
      match Commit id c w with
      | (Returns err, c', w') => (Returns (ErrorReply err), c', w')
      | (Panics v, c', w') => (Panics v, c', w')
      | (Exits, c', w') => (Exits, c', w')
      end
  | CallRollback =>
      match Rollback c w with
      | (Returns err, c', w') => (Returns (ErrorReply err), c', w')
      | (Panics v, c', w') => (Panics v, c', w')
      | (Exits, c', w') => (Exits, c', w')
      end
  end.

(** The context a call leaves, whether it returned or panicked. *)
Definition after (op : call) (c : transactionContext) (w : World)
  : transactionContext :=
  snd (fst (invoke op c w)).

Inductive evolves (c : transactionContext) : transactionContext -> Prop :=
| evolves_here : evolves c c
| evolves_call (c' : transactionContext) (op : call) (w : World) :
    evolves c c' -> evolves c (after op c' w).

(** The contexts a program can hold, a panic of a call being recovered:
    made by [newTransactionContext] with any holder pointer, nil too, then
    used through the interface. *)
Definition reachable (c : transactionContext) : Prop :=
  exists l h, evolves (newTransactionContext l h) c.

Definition paired (c : transactionContext) : Prop :=
  (tx c = None /\ transactionUUID c = None) \/
  (tx c <> None /\ transactionUUID c <> None).

End Ptr.

(** A context of the first kind, its holder behind a pointer. *)
Definition withHolderPointer (c : transactionContext) : Ptr.transactionContext :=
  Ptr.mkTransactionContext (logger c) (Some (dbHolder c)) (tx c)
    (transactionUUID c) (rollbacked c).

(** The transaction context at an address as it was made, holder pointer as
    it was given: nil, or the holder at that address. *)
Definition pointerContextAt (g : Program) (a : nat)
  : option Ptr.transactionContext :=
  match nth_error (txObjects g) a with
  | Some o =>
      match objHolder o with
      | Some ha =>
          option_map (fun d => Ptr.newTransactionContext (objLogger o) (Some d))
                     (nth_error (holders (proc g)) ha)
      | None => Some (Ptr.newTransactionContext (objLogger o) None)
      end
  | None => None
  end.

(* ------------------------------------------------------------------ *)
(** ** Basic facts *)

Lemma inTransaction_spec (c : transactionContext) :
  inTransaction c = true <->
  exists t id, tx c = Some t /\ transactionUUID c = Some id.
Proof.
  unfold inTransaction. split.
  - destruct (tx c) as [t|]; [|discriminate].
    destruct (transactionUUID c) as [id|]; [|discriminate].
    intros _. exists t, id. split; reflexivity.
  - intros (t & id & Ht & Hid). rewrite Ht, Hid. reflexivity.
Qed.

Lemma state_Active (c : transactionContext) :
  state c = Active <-> wasRollbacked c = false /\ inTransaction c = true.
Proof.
  unfold state.
  destruct (wasRollbacked c), (inTransaction c); split;
    try discriminate; try tauto; intros [? ?]; discriminate.
Qed.

Lemma state_Idle (c : transactionContext) :
  state c = Idle <-> wasRollbacked c = false /\ inTransaction c = false.
Proof.
  unfold state.
  destruct (wasRollbacked c), (inTransaction c); split;
    try discriminate; try tauto; intros [? ?]; discriminate.
Qed.

Lemma state_RolledBack (c : transactionContext) :
  state c = RolledBack <-> wasRollbacked c = true.
Proof.
  unfold state.
  destruct (wasRollbacked c), (inTransaction c); split;
    try discriminate; try tauto.
Qed.

Lemma pairedb_paired (c : transactionContext) :
  pairedb c = true <-> paired c.
Proof.
  unfold pairedb, paired.
  destruct (tx c), (transactionUUID c); split; intro H;
    try reflexivity; try discriminate.
  - right. split; discriminate.
  - destruct H as [[H _]|[_ H]]; [discriminate | congruence].
  - destruct H as [[_ H]|[H _]]; [discriminate | congruence].
  - left. split; reflexivity.
Qed.

(** What [Begin] does in each of the three states. *)
Lemma Begin_RolledBack (c : transactionContext) (w : World) :
  wasRollbacked c = true ->
  Begin c w = ((Nil, Some ErrTxWasRollbacked), c, w).
Proof. intro H. unfold Begin. rewrite H. reflexivity. Qed.

Lemma Commit_RolledBack (id : UUID) (c : transactionContext) (w : World) :
  wasRollbacked c = true -> Commit id c w = (Some ErrTxWasRollbacked, c, w).
Proof. intro H. unfold Commit. rewrite H. reflexivity. Qed.

Lemma Rollback_RolledBack (c : transactionContext) (w : World) :
  wasRollbacked c = true -> Rollback c w = (Some ErrTxWasRollbacked, c, w).
Proof. intro H. unfold Rollback. rewrite H. reflexivity. Qed.

Lemma Commit_Idle (id : UUID) (c : transactionContext) (w : World) :
  state c = Idle -> Commit id c w = (Some ErrNotInTransaction, c, w).
Proof.
  intro H. apply state_Idle in H. destruct H as [Hr Hi].
  unfold Commit. rewrite Hr, Hi. reflexivity.
Qed.

(** The owner's [Commit] on an active context: the driver is asked to
    commit, its answer is the result, and the context is disposed of. *)
Lemma Commit_owner (c : transactionContext) (w : World) (t : DB) (owner : UUID) :
  wasRollbacked c = false -> tx c = Some t -> transactionUUID c = Some owner ->
  let r := driver w (length (sqlLog w)) in
  let w1 := snd (gormCommit t w) in
  Commit owner c w =
    (r,
     mkTransactionContext (logger c) (dbHolder c) None None (rollbacked c),
     logf LvlDebug (logger c) "disposing transaction (%v)"
       match r with
       | Some _ => logf LvlError (logger c)
                     "cannot commit transaction: %v; err: %s" w1
       | None => w1
       end).
Proof.
  intros Hr Ht Hu. unfold Commit, inTransaction.
  rewrite Hr, Ht, Hu. cbn [negb]. rewrite N.eqb_refl. cbn [negb].
  unfold gormCommit, driverCall, dispose. cbn.
  destruct (driver w (length (sqlLog w))); reflexivity.
Qed.

(** [Rollback] on an active context: the driver is asked to roll back, its
    answer is the result, the flag is set and the context disposed of. *)
Lemma Rollback_Active (c : transactionContext) (w : World) (t : DB) :
  state c = Active -> tx c = Some t ->
  let r := driver w (length (sqlLog w)) in
  let w1 := snd (gormRollback t w) in
  Rollback c w =
    (r,
     mkTransactionContext (logger c) (dbHolder c) None None true,
     logf LvlDebug (logger c) "disposing transaction (%v)"
       match r with
       | Some _ => logf LvlError (logger c) "cannot rollback (%v): %s" w1
       | None => w1
       end).
Proof.
  intros Hs Ht. apply state_Active in Hs. destruct Hs as [Hr Hi].
  unfold Rollback. rewrite Hr, Hi, Ht. cbn [negb].
  unfold gormRollback, driverCall, disposeAfterRollback, dispose. cbn.
  destruct (driver w (length (sqlLog w))); reflexivity.
Qed.

(** The flag is never cleared: no call lowers it. *)
Lemma rollbacked_after (op : call) (c : transactionContext) (w : World) :
  rollbacked c = true -> after op c w = c.
Proof.
  intro H. unfold after, invoke. destruct op.
  - rewrite Begin_RolledBack by exact H. reflexivity.
  - destruct (Provider c w). reflexivity.
  - rewrite Commit_RolledBack by exact H. reflexivity.
  - rewrite Rollback_RolledBack by exact H. reflexivity.
Qed.

Lemma rollbacked_evolves (c c' : transactionContext) :
  rollbacked c = true -> evolves c c' -> c' = c.
Proof.
  intros H E. induction E as [|c' op w E IH].
  - reflexivity.
  - rewrite IH. apply rollbacked_after. exact H.
Qed.

(** Every call keeps invariant A. *)
Lemma paired_after (op : call) (c : transactionContext) (w : World) :
  paired c -> paired (after op c w).
Proof.
  intro P. apply pairedb_paired. apply pairedb_paired in P.
  destruct c as [l h t u r].
  unfold after, invoke, pairedb in *. cbn in P.
  destruct op.
  - unfold Begin, NewRandom, inTransaction, wasRollbacked, gormBegin, driverCall.
    cbn. destruct r; [exact P|].
    destruct (entropy w (drawn w)); cbn; [|exact P].
    destruct t, u; try discriminate; cbn; [reflexivity|].
    destruct (driver w (length (sqlLog w))); reflexivity.
  - destruct (Provider _ w). exact P.
  - unfold Commit, inTransaction, wasRollbacked, gormCommit, driverCall, dispose.
    cbn. destruct r; [exact P|].
    destruct t, u; try discriminate; cbn; [|reflexivity].
    destruct (negb (N.eqb u id)); cbn; [reflexivity|].
    destruct (driver w (length (sqlLog w))); reflexivity.
  - unfold Rollback, inTransaction, wasRollbacked, gormRollback, driverCall,
      disposeAfterRollback, dispose.
    cbn. destruct r; [exact P|].
    destruct t, u; try discriminate; cbn; [|reflexivity].
    destruct (driver w (length (sqlLog w))); reflexivity.
Qed.

Lemma paired_evolves (c c' : transactionContext) :
  paired c -> evolves c c' -> paired c'.
Proof.
  intros P E. induction E as [|c' op w E IH].
  - exact P.
  - apply paired_after. exact IH.
Qed.

(* ------------------------------------------------------------------ *)
(** ** [Begin] on an active context *)

(** C1, as stated, fails: [fresh] is begun in the calm world and holds the
    owning identifier 1; the nested [Begin] that follows returns the
    identifier 2 that [uuid.NewRandom] has just made, not the stored one. *)
Lemma Begin_active_returns_new_identifier :
  state (begun calm) = Active /\
  transactionUUID (begun calm) = Some 1%N /\
  fst (fst (fst (Begin (begun calm) (begunWorld calm)))) = 2%N /\
  Some (fst (fst (fst (Begin (begun calm) (begunWorld calm)))))
    <> transactionUUID (begun calm).
Proof.
  split; [reflexivity|]. split; [reflexivity|]. split; [reflexivity|].
  intro H. vm_compute in H. discriminate H.
Qed.

(** C1, amended: for every context in the Active state, [Begin] returns what
    [uuid.NewRandom] has just given (a newly generated identifier with no
    error, or [Nil] with the generator's error), it asks nothing of the
    driver, so no transaction is opened, and it leaves the context, hence
    the stored handle and the stored owning identifier, as they were. *)
Theorem Begin_active_joins (c : transactionContext) (w : World) :
  state c = Active ->
  fst (fst (Begin c w)) = fst (NewRandom w) /\
  snd (fst (Begin c w)) = c /\
  sqlLog (snd (Begin c w)) = sqlLog w.
Proof.
  intro H. apply state_Active in H. destruct H as [Hr Hi].
  unfold Begin, NewRandom. rewrite Hr, Hi.
  destruct (entropy w (drawn w)); cbn; repeat split; reflexivity.
Qed.

Lemma Begin_active_joins_witness :
  state (begun calm) = Active /\
  fst (fst (Begin (begun calm) (begunWorld calm))) = (2%N, None) /\
  snd (fst (Begin (begun calm) (begunWorld calm))) = begun calm /\
  sqlLog (snd (Begin (begun calm) (begunWorld calm)))
    = sqlLog (begunWorld calm).
Proof.
  split; [reflexivity|].
  exact (Begin_active_joins (begun calm) (begunWorld calm) eq_refl).
Defined.

(* ------------------------------------------------------------------ *)
(** ** [Rollback] *)

(** C2: a [Rollback] on an active context sets the flag, whatever the driver
    answers to the rollback; whatever calls follow, in whatever world, the
    flag stays set, and every [Begin], [Commit] and [Rollback] made then
    fails with [ErrTxWasRollbacked]. *)
Theorem Rollback_is_terminal (c : transactionContext) (w : World) :
  state c = Active ->
  rollbacked (snd (fst (Rollback c w))) = true /\
  forall c2 : transactionContext,
    evolves (snd (fst (Rollback c w))) c2 ->
    rollbacked c2 = true /\
    forall (w2 : World) (id : UUID),
      snd (fst (fst (Begin c2 w2))) = Some ErrTxWasRollbacked /\
      fst (fst (Commit id c2 w2)) = Some ErrTxWasRollbacked /\
      fst (fst (Rollback c2 w2)) = Some ErrTxWasRollbacked.
Proof.
  intro H.
  assert (Hflag : rollbacked (snd (fst (Rollback c w))) = true).
  { pose proof H as Hs. apply state_Active in Hs. destruct Hs as [_ Hi].
    apply inTransaction_spec in Hi. destruct Hi as (t & id & Ht & _).
    rewrite (Rollback_Active c w t H Ht). reflexivity. }
  set (c1 := snd (fst (Rollback c w))) in *. clearbody c1.
  split; [exact Hflag|].
  intros c2 E. rewrite (rollbacked_evolves _ _ Hflag E).
  split; [exact Hflag|]. intros w2 id.
  rewrite (Begin_RolledBack c1 w2 Hflag), (Commit_RolledBack id c1 w2 Hflag),
    (Rollback_RolledBack c1 w2 Hflag).
  repeat split; reflexivity.
Qed.

(** The rollback the driver refuses: the context is begun in a world whose
    second driver call fails. *)
Lemma Rollback_is_terminal_witness :
  state (begun (failsAt 1)) = Active /\
  fst (fst (Rollback (begun (failsAt 1)) (begunWorld (failsAt 1))))
    = Some connectionLost /\
  rollbacked (snd (fst (Rollback (begun (failsAt 1))
                          (begunWorld (failsAt 1))))) = true /\
  forall c2 : transactionContext,
    evolves (snd (fst (Rollback (begun (failsAt 1))
                         (begunWorld (failsAt 1))))) c2 ->
    rollbacked c2 = true /\
    forall (w2 : World) (id : UUID),
      snd (fst (fst (Begin c2 w2))) = Some ErrTxWasRollbacked /\
      fst (fst (Commit id c2 w2)) = Some ErrTxWasRollbacked /\
      fst (fst (Rollback c2 w2)) = Some ErrTxWasRollbacked.
Proof.
  split; [reflexivity|]. split; [reflexivity|].
  exact (Rollback_is_terminal (begun (failsAt 1)) (begunWorld (failsAt 1))
           eq_refl).
Defined.

(** C9: [Rollback] on an idle context returns nil, asks nothing of the
    driver and leaves the context as it was; the world only gains the debug
    line. *)
Theorem Rollback_idle_is_noop (c : transactionContext) (w : World) :
  state c = Idle ->
  Rollback c w =
    (None, c, logf LvlDebug (logger c) "no active transaction to roll back" w)
  /\ sqlLog (snd (Rollback c w)) = sqlLog w
  /\ filter isRollback (sqlLog (snd (Rollback c w)))
       = filter isRollback (sqlLog w).
Proof.
  intro H. apply state_Idle in H. destruct H as [Hr Hi].
  unfold Rollback. rewrite Hr, Hi. cbn. repeat split; reflexivity.
Qed.

(** A context that never began, and one committed back to idle. *)
Lemma Rollback_idle_is_noop_witness :
  (state fresh = Idle /\
   fst (fst (Rollback fresh calm)) = None /\
   snd (fst (Rollback fresh calm)) = fresh /\
   sqlLog (snd (Rollback fresh calm)) = []) /\
  (state (snd (fst (Commit 1%N (begun calm) (begunWorld calm)))) = Idle /\
   fst (fst (Rollback (snd (fst (Commit 1%N (begun calm) (begunWorld calm))))
               (snd (Commit 1%N (begun calm) (begunWorld calm))))) = None).
Proof.
  split.
  - split; [reflexivity|].
    destruct (Rollback_idle_is_noop fresh calm eq_refl) as (E & L & _).
    rewrite E. repeat split; reflexivity.
  - split; [reflexivity|].
    destruct (Rollback_idle_is_noop
                (snd (fst (Commit 1%N (begun calm) (begunWorld calm))))
                (snd (Commit 1%N (begun calm) (begunWorld calm))) eq_refl)
      as (E & _).
    rewrite E. reflexivity.
Defined.

(* ------------------------------------------------------------------ *)
(** ** [Commit] *)

(** C3: on an active context, [Commit] with an identifier other than the
    stored owning one returns nil and changes neither the context nor the
    world: the driver is asked nothing, and the context is still active with
    the same handle and owner. *)
Theorem Commit_non_owner_is_noop
  (c : transactionContext) (w : World) (owner id : UUID) :
  state c = Active -> transactionUUID c = Some owner -> id <> owner ->
  Commit id c w = (None, c, w).
Proof.
  intros H Hu Hne. apply state_Active in H. destruct H as [Hr Hi].
  pose proof Hi as Hi'. apply inTransaction_spec in Hi'.
  destruct Hi' as (t & o & Ht & Ho).
  unfold Commit. rewrite Hr, Hi, Hu, Ht. cbn [negb].
  destruct (N.eqb owner id) eqn:E.
  - apply N.eqb_eq in E. congruence.
  - reflexivity.
Qed.

Lemma Commit_non_owner_is_noop_witness :
  state (begun calm) = Active /\
  transactionUUID (begun calm) = Some 1%N /\
  7%N <> 1%N /\
  Commit 7%N (begun calm) (begunWorld calm)
    = (None, begun calm, begunWorld calm).
Proof.
  split; [reflexivity|]. split; [reflexivity|].
  assert (N : 7%N <> 1%N) by discriminate.
  split; [exact N|].
  exact (Commit_non_owner_is_noop (begun calm) (begunWorld calm) 1%N 7%N
           eq_refl eq_refl N).
Defined.

(** C4, as stated, fails on the word "succeeds": the context is begun in a
    world whose second driver call, the commit, is refused; the owner's
    [Commit] then returns the driver's error, not nil. *)
Lemma Commit_owner_can_fail :
  state (begun (failsAt 1)) = Active /\
  transactionUUID (begun (failsAt 1)) = Some 1%N /\
  fst (fst (Commit 1%N (begun (failsAt 1)) (begunWorld (failsAt 1))))
    = Some connectionLost /\
  fst (fst (Commit 1%N (begun (failsAt 1)) (begunWorld (failsAt 1)))) <> None.
Proof.
  split; [reflexivity|]. split; [reflexivity|]. split; [reflexivity|].
  intro H. vm_compute in H. discriminate H.
Qed.

(** C4, amended: on an active context, [Commit] with the owning identifier
    returns what the driver answers to the commit (nil when the commit goes
    through) and takes the context to Idle, handle and identifier cleared;
    every [Commit] that follows, with any identifier, fails with
    [ErrNotInTransaction] and leaves the context idle, and so does a
    [Commit] on a context that has just been made. *)
Theorem Commit_owner_finalizes
  (c : transactionContext) (w : World) (owner : UUID) :
  state c = Active -> transactionUUID c = Some owner ->
  fst (fst (Commit owner c w)) = nextAnswer w /\
  state (snd (fst (Commit owner c w))) = Idle /\
  tx (snd (fst (Commit owner c w))) = None /\
  transactionUUID (snd (fst (Commit owner c w))) = None /\
  (forall (ids : list UUID) (w2 : World),
     run (map CallCommit ids) (snd (fst (Commit owner c w))) w2 =
       (map (fun _ => ErrorReply (Some ErrNotInTransaction)) ids,
        snd (fst (Commit owner c w)), w2)) /\
  (forall (l : Logger) (h : DatabaseHolder) (id : UUID) (w0 : World),
     Commit id (newTransactionContext l h) w0 =
       (Some ErrNotInTransaction, newTransactionContext l h, w0)).
Proof.
  intros H Hu. apply state_Active in H. destruct H as [Hr Hi].
  apply inTransaction_spec in Hi. destruct Hi as (t & o & Ht & _).
  rewrite (Commit_owner c w t owner Hr Ht Hu). cbn [fst snd].
  unfold wasRollbacked in Hr.
  assert (Hidle : state (mkTransactionContext (logger c) (dbHolder c) None
                           None (rollbacked c)) = Idle).
  { unfold state, wasRollbacked, inTransaction. cbn. rewrite Hr. reflexivity. }
  split; [reflexivity|]. split; [exact Hidle|].
  split; [reflexivity|]. split; [reflexivity|]. split.
  - intros ids. induction ids as [|id ids IH]; intro w2.
    + reflexivity.
    + cbn [map run invoke]. rewrite (Commit_Idle id _ w2 Hidle).
      rewrite IH. reflexivity.
  - intros l h id w0. apply Commit_Idle. reflexivity.
Qed.

Lemma Commit_owner_finalizes_witness :
  state (begun calm) = Active /\
  transactionUUID (begun calm) = Some 1%N /\
  fst (fst (Commit 1%N (begun calm) (begunWorld calm))) = None /\
  state (snd (fst (Commit 1%N (begun calm) (begunWorld calm)))) = Idle /\
  fst (fst (run [CallCommit 1%N; CallCommit 7%N]
              (snd (fst (Commit 1%N (begun calm) (begunWorld calm))))
              (snd (Commit 1%N (begun calm) (begunWorld calm)))))
    = [ErrorReply (Some ErrNotInTransaction);
       ErrorReply (Some ErrNotInTransaction)].
Proof.
  split; [reflexivity|]. split; [reflexivity|].
  destruct (Commit_owner_finalizes (begun calm) (begunWorld calm) 1%N
              eq_refl eq_refl) as (R & S & _ & _ & L & _).
  split; [exact R|]. split; [exact S|].
  rewrite (L [1%N; 7%N]). reflexivity.
Defined.

(** C6: when the driver refuses the commit the owner asks for on an active
    context, [Commit] returns the driver's error as it is, the commit has
    been asked of the driver on the stored handle, and the handle and the
    identifier are cleared all the same: the context is idle. *)
Theorem Commit_failure_still_disposes
  (c : transactionContext) (w : World) (owner : UUID) (e : error) :
  state c = Active -> transactionUUID c = Some owner ->
  nextAnswer w = Some e ->
  fst (fst (Commit owner c w)) = Some e /\
  tx (snd (fst (Commit owner c w))) = None /\
  transactionUUID (snd (fst (Commit owner c w))) = None /\
  state (snd (fst (Commit owner c w))) = Idle /\
  exists t : DB,
    tx c = Some t /\
    sqlLog (snd (Commit owner c w))
      = (SqlCommit (sqlObj t), Some e) :: sqlLog w.
Proof.
  intros H Hu He. apply state_Active in H. destruct H as [Hr Hi].
  apply inTransaction_spec in Hi. destruct Hi as (t & o & Ht & _).
  rewrite (Commit_owner c w t owner Hr Ht Hu). cbn [fst snd].
  unfold nextAnswer in He. unfold wasRollbacked in Hr.
  split; [exact He|]. split; [reflexivity|]. split; [reflexivity|]. split.
  - unfold state, wasRollbacked, inTransaction. cbn. rewrite Hr. reflexivity.
  - exists t. split; [exact Ht|]. rewrite He.
    unfold gormCommit, driverCall. cbn. rewrite He. reflexivity.
Qed.

Lemma Commit_failure_still_disposes_witness :
  state (begun (failsAt 1)) = Active /\
  transactionUUID (begun (failsAt 1)) = Some 1%N /\
  nextAnswer (begunWorld (failsAt 1)) = Some connectionLost /\
  fst (fst (Commit 1%N (begun (failsAt 1)) (begunWorld (failsAt 1))))
    = Some connectionLost /\
  state (snd (fst (Commit 1%N (begun (failsAt 1)) (begunWorld (failsAt 1)))))
    = Idle.
Proof.
  split; [reflexivity|]. split; [reflexivity|]. split; [reflexivity|].
  destruct (Commit_failure_still_disposes (begun (failsAt 1))
              (begunWorld (failsAt 1)) 1%N connectionLost
              eq_refl eq_refl eq_refl) as (R & _ & _ & S & _).
  split; [exact R | exact S].
Defined.

(* ------------------------------------------------------------------ *)
(** ** [Begin] on an idle context *)

(** [Begin] on an idle context, once an identifier has been made: the
    driver is asked to begin on the holder's connection, and the handle and
    the identifier are stored before the handle's error is looked at. *)
Lemma Begin_Idle (c : transactionContext) (w : World) (id : UUID) :
  state c = Idle -> entropy w (drawn w) = inl id ->
  let t := fst (gormBegin (dbConnection (dbHolder c)) (snd (NewRandom w))) in
  fst (fst (Begin c w)) = (id, nextAnswer w) /\
  snd (fst (Begin c w)) =
    mkTransactionContext (logger c) (dbHolder c) (Some t) (Some id)
      (rollbacked c) /\
  Error t = nextAnswer w /\ isTx t = true /\
  sqlLog (snd (Begin c w))
    = (SqlBegin (sqlObj (dbConnection (dbHolder c))), nextAnswer w) :: sqlLog w.
Proof.
  intros H He. apply state_Idle in H. destruct H as [Hr Hi].
  unfold Begin, NewRandom, nextAnswer. rewrite Hr, Hi, He. cbn.
  destruct (driver w (length (sqlLog w))); cbn; repeat split; reflexivity.
Qed.

(** C7: when [Begin] is called on an idle context and the driver refuses to
    begin, [Begin] returns the driver's error, and the handle and the
    identifier it has just made stay stored: [inTransaction] answers true
    and the context is in the Active state, not back in Idle. *)
Theorem Begin_failure_leaves_active
  (c : transactionContext) (w : World) (id : UUID) (e : error) :
  state c = Idle -> entropy w (drawn w) = inl id -> nextAnswer w = Some e ->
  fst (fst (Begin c w)) = (id, Some e) /\
  (exists t : DB,
     tx (snd (fst (Begin c w))) = Some t /\ Error t = Some e) /\
  transactionUUID (snd (fst (Begin c w))) = Some id /\
  inTransaction (snd (fst (Begin c w))) = true /\
  state (snd (fst (Begin c w))) = Active.
Proof.
  intros H Hid He.
  destruct (Begin_Idle c w id H Hid) as (R & C & Et & _ & _).
  apply state_Idle in H. destruct H as [Hr _]. unfold wasRollbacked in Hr.
  rewrite R, C, He. cbn [tx transactionUUID].
  split; [reflexivity|]. split.
  - eexists. split; [reflexivity|]. rewrite Et. exact He.
  - split; [reflexivity|]. split; [reflexivity|].
    unfold state, wasRollbacked, inTransaction. cbn. rewrite Hr. reflexivity.
Qed.

Lemma Begin_failure_leaves_active_witness :
  state fresh = Idle /\
  entropy (failsAt 0) (drawn (failsAt 0)) = inl 1%N /\
  nextAnswer (failsAt 0) = Some connectionLost /\
  fst (fst (Begin fresh (failsAt 0))) = (1%N, Some connectionLost) /\
  inTransaction (begun (failsAt 0)) = true /\
  state (begun (failsAt 0)) = Active.
Proof.
  split; [reflexivity|]. split; [reflexivity|]. split; [reflexivity|].
  destruct (Begin_failure_leaves_active fresh (failsAt 0) 1%N connectionLost
              eq_refl eq_refl eq_refl) as (R & _ & _ & I & S).
  split; [exact R|]. split; [exact I | exact S].
Defined.

(* ------------------------------------------------------------------ *)
(** ** [Provider] *)

(** C8: [Provider] gives the stored transaction handle when the context is
    active, the connection of the holder when it is idle, and nil when it has
    been rolled back. *)
Theorem Provider_by_state (c : transactionContext) (w : World) :
  (state c = Active ->
     exists t : DB, tx c = Some t /\ Provider c w = (Some t, w)) /\
  (state c = Idle ->
     Provider c w = (Some (dbConnection (dbHolder c)), w)) /\
  (state c = RolledBack -> fst (Provider c w) = None).
Proof.
  split; [|split]; intro H.
  - apply state_Active in H. destruct H as [Hr Hi].
    pose proof Hi as Hi'. apply inTransaction_spec in Hi'.
    destruct Hi' as (t & o & Ht & _).
    exists t. split; [exact Ht|].
    unfold Provider. rewrite Hr, Hi, Ht. reflexivity.
  - apply state_Idle in H. destruct H as [Hr Hi].
    unfold Provider. rewrite Hr, Hi. reflexivity.
  - apply state_RolledBack in H. unfold Provider. rewrite H. reflexivity.
Qed.

(** One context in each state: begun, fresh, and begun then rolled back. *)
Lemma Provider_by_state_witness :
  (state (begun calm) = Active /\
   fst (Provider (begun calm) (begunWorld calm)) = tx (begun calm)) /\
  (state fresh = Idle /\
   fst (Provider fresh calm) = Some (dbConnection sampleHolder)) /\
  (state (snd (fst (Rollback (begun calm) (begunWorld calm)))) = RolledBack /\
   fst (Provider (snd (fst (Rollback (begun calm) (begunWorld calm)))) calm)
     = None).
Proof.
  split; [|split].
  - split; [reflexivity|].
    destruct (proj1 (Provider_by_state (begun calm) (begunWorld calm)) eq_refl)
      as (t & Ht & E).
    rewrite E, Ht. reflexivity.
  - split; [reflexivity|].
    rewrite (proj1 (proj2 (Provider_by_state fresh calm)) eq_refl).
    reflexivity.
  - split; [reflexivity|].
    exact (proj2 (proj2 (Provider_by_state
                           (snd (fst (Rollback (begun calm) (begunWorld calm))))
                           calm)) eq_refl).
Defined.

(* ------------------------------------------------------------------ *)
(** ** Invariant A *)

Lemma reachable_paired (c : transactionContext) : reachable c -> paired c.
Proof.
  intros (l & h & E). apply (paired_evolves (newTransactionContext l h)).
  - left. split; reflexivity.
  - exact E.
Qed.

(** The handle a reachable context stores was made by the driver's begin. *)
Lemma isTx_after (op : call) (c : transactionContext) (w : World) :
  (forall t, tx c = Some t -> isTx t = true) ->
  forall t, tx (after op c w) = Some t -> isTx t = true.
Proof.
  intros P t. destruct c as [l h t0 u r].
  unfold after, invoke. cbn in P. destruct op.
  - unfold Begin, NewRandom, inTransaction, wasRollbacked, gormBegin, driverCall.
    cbn. destruct r; [apply P|].
    destruct (entropy w (drawn w)); cbn; [|apply P].
    destruct t0, u; cbn; try apply P;
      destruct (driver w (length (sqlLog w))); cbn; intro E;
      inversion E; reflexivity.
  - destruct (Provider _ w). apply P.
  - unfold Commit, inTransaction, wasRollbacked, gormCommit, driverCall, dispose.
    cbn. destruct r; [apply P|].
    destruct t0, u; cbn; try apply P.
    destruct (negb (N.eqb u id)); cbn; [apply P|].
    destruct (driver w (length (sqlLog w))); cbn; discriminate.
  - unfold Rollback, inTransaction, wasRollbacked, gormRollback, driverCall,
      disposeAfterRollback, dispose.
    cbn. destruct r; [apply P|].
    destruct t0, u; cbn; try apply P.
    destruct (driver w (length (sqlLog w))); cbn; discriminate.
Qed.

Lemma reachable_tx_isTx (c : transactionContext) (t : DB) :
  reachable c -> tx c = Some t -> isTx t = true.
Proof.
  intros (l & h & E). revert t.
  induction E as [|c' op w E IH]; intros t.
  - discriminate.
  - apply isTx_after. exact IH.
Qed.

(** In a reachable context the flag and the transaction exclude each other,
    so Active is exactly "handle and identifier stored". *)
Lemma reachable_rollbacked_disposed (c : transactionContext) :
  reachable c -> rollbacked c = true -> inTransaction c = false.
Proof.
  intros (l & h & E).
  induction E as [|c' op w E IH]; [discriminate|].
  destruct (rollbacked c') eqn:R.
  - rewrite (rollbacked_after op c' w R). intros _. apply IH. reflexivity.
  - clear IH E. destruct c' as [l' h' t u r]. cbn in R. subst r.
    unfold after, invoke. destruct op.
    + unfold Begin, NewRandom, inTransaction, wasRollbacked, gormBegin,
        driverCall.
      cbn. destruct (entropy w (drawn w)); cbn; [|discriminate].
      destruct t, u; cbn; try discriminate;
        destruct (driver w (length (sqlLog w))); cbn; discriminate.
    + destruct (Provider _ w). cbn. discriminate.
    + unfold Commit, inTransaction, wasRollbacked, gormCommit, driverCall,
        dispose.
      cbn. destruct t, u; cbn; try discriminate.
      destruct (negb (N.eqb u id)); cbn; [discriminate|].
      destruct (driver w (length (sqlLog w))); cbn; discriminate.
    + unfold Rollback, inTransaction, wasRollbacked, gormRollback, driverCall,
        disposeAfterRollback, dispose.
      cbn. destruct t, u; cbn; try discriminate;
        destruct (driver w (length (sqlLog w))); cbn; reflexivity.
Qed.

Lemma reachable_Active (c : transactionContext) :
  reachable c -> (state c = Active <-> inTransaction c = true).
Proof.
  intro R. rewrite state_Active. split; [tauto|]. intro I. split; [|exact I].
  unfold wasRollbacked. destruct (rollbacked c) eqn:F; [|reflexivity].
  rewrite (reachable_rollbacked_disposed c R F) in I. discriminate I.
Qed.

(** Invariant A where the holder is a value: after any calls of [Begin],
    [Provider], [Commit] and [Rollback] on a context made by
    [newTransactionContext], the handle and the owning identifier are both
    there or both absent, and whichever call comes next keeps it so. *)
Theorem handle_and_identifier_paired (c : transactionContext) :
  reachable c ->
  paired c /\ forall (op : call) (w : World), paired (after op c w).
Proof.
  intro R. pose proof (reachable_paired c R) as P.
  split; [exact P|]. intros op w. apply paired_after. exact P.
Qed.

Lemma begun_reachable (w : World) : reachable (begun w).
Proof.
  exists 0, sampleHolder.
  unfold begun. apply evolves_call. apply evolves_here.
Defined.

Lemma handle_and_identifier_paired_witness :
  reachable (begun (failsAt 0)) /\
  paired (begun (failsAt 0)) /\
  forall (op : call) (w : World), paired (after op (begun (failsAt 0)) w).
Proof.
  split; [exact (begun_reachable (failsAt 0))|].
  exact (handle_and_identifier_paired (begun (failsAt 0))
           (begun_reachable (failsAt 0))).
Defined.

(* ------------------------------------------------------------------ *)
(** ** The holder singleton *)

(** When the loop of [Open] returns without an error, the configuration was
    not nil, one more connection is open, it is the latest the driver was
    asked for and it was asked for with this configuration's connection
    string; the handle returned is the one made then, with the settings of
    the configuration. *)
Lemma OpenLoop_connected (more : nat) :
  forall (cfg : option PgConfig) (lg : Logger) (w w1 : World) (db : DB),
  OpenLoop more cfg lg w = (Returns (db, None), w1) ->
  exists cf : PgConfig,
    cfg = Some cf /\
    opened w1 = S (opened w) /\
    hd_error (sqlLog w1) = Some (SqlOpen (connectionString cf), None) /\
    sqlObj db = length (sqlLog w1) - 1 /\
    isTx db = false /\
    maxOpenConns db = MaxOpenConnections cf /\
    logMode db = LogMode cf.
Proof.
  induction more as [|more IH]; intros cfg lg w w1 db H;
    destruct cfg as [cf|]; try discriminate H;
    cbn [OpenLoop] in H; unfold gormOpen, driverCall in H; cbn in H;
    destruct (driver w (length (sqlLog w))) as [e|] eqn:D.
  - destruct (fatalExits w); discriminate H.
  - inversion H; subst. exists cf. unfold opened. cbn.
    rewrite Nat.sub_0_r. repeat split; reflexivity.
  - apply IH in H. destruct H as (cf' & Hc & Ho & rest).
    inversion Hc; subst cf'. exists cf. split; [reflexivity|].
    split; [|exact rest]. rewrite Ho. reflexivity.
  - inversion H; subst. exists cf. unfold opened. cbn.
    rewrite Nat.sub_0_r. repeat split; reflexivity.
Qed.

(** Once the [sync.Once] is marked, [NewDBHolderInstance] returns the
    package variable and touches nothing, whatever its argument. *)
Lemma NewDBHolderInstance_done (config : option PgConfig) (p : Process) :
  Package.onceDBHolder (pkg p) = true ->
  NewDBHolderInstance config p = (Returns (Package.dbHolder (pkg p)), p).
Proof.
  intro H. unfold NewDBHolderInstance, onceDo. rewrite H. reflexivity.
Qed.

Lemma instances_done (configs : list (option PgConfig)) (p : Process) :
  Package.onceDBHolder (pkg p) = true ->
  instances configs p =
    (map (fun _ => Returns (Package.dbHolder (pkg p))) configs, p).
Proof.
  intro H. induction configs as [|config rest IH].
  - reflexivity.
  - cbn [instances map]. rewrite (NewDBHolderInstance_done config p H).
    rewrite IH. reflexivity.
Qed.

(** The first call, when it returns: what it leaves behind. *)
Lemma NewDBHolderInstance_first
  (config : option PgConfig) (p p1 : Process) (h : option nat) :
  Package.onceDBHolder (pkg p) = false ->
  NewDBHolderInstance config p = (Returns h, p1) ->
  exists (db : DB) (w1 : World),
    OpenLoop (defaultConnectionNumberOfRetries - 1) config FromDefaultContext
      (world p) = (Returns (db, None), w1) /\
    h = Some (length (holders p)) /\
    p1 = mkProcess
           (Package.mkVars h true (Package.DbConfig (pkg p)))
           (holders p ++ [mkDatabaseHolder db]) w1.
Proof.
  intros Honce H. unfold NewDBHolderInstance, onceDo in H. rewrite Honce in H.
  unfold NewConnect, Open in H.
  destruct (OpenLoop (defaultConnectionNumberOfRetries - 1) config
              FromDefaultContext (world p)) as [[[db [e|]]|v|] w1] eqn:L;
    cbn in H; try discriminate H.
  inversion H; subst. exists db, w1. repeat split; reflexivity.
Qed.

(** C10: when the first call of [NewDBHolderInstance] in a process has
    returned a holder, every later call, with any configuration or with nil,
    returns the same address and leaves the whole process as it was, so no
    connection is opened by it.  The first call has opened exactly one
    connection, with the connection string of its own configuration, and the
    holder at that address carries the handle made then. *)
Theorem NewDBHolderInstance_singleton
  (config : option PgConfig) (p p1 : Process) (h : option nat) :
  Package.onceDBHolder (pkg p) = false ->
  NewDBHolderInstance config p = (Returns h, p1) ->
  (forall configs : list (option PgConfig),
     instances configs p1 = (map (fun _ => Returns h) configs, p1)) /\
  opened (world p1) = S (opened (world p)) /\
  exists (cf : PgConfig) (a : nat) (d : DatabaseHolder),
    config = Some cf /\ h = Some a /\
    nth_error (holders p1) a = Some d /\
    hd_error (sqlLog (world p1)) = Some (SqlOpen (connectionString cf), None) /\
    sqlObj (dbConnection d) = length (sqlLog (world p1)) - 1 /\
    maxOpenConns (dbConnection d) = MaxOpenConnections cf /\
    logMode (dbConnection d) = LogMode cf.
Proof.
  intros Honce H.
  destruct (NewDBHolderInstance_first config p p1 h Honce H)
    as (db & w1 & L & Hh & Hp).
  destruct (OpenLoop_connected _ _ _ _ _ _ L)
    as (cf & Hc & Ho & Hd & Hs & _ & Hm & Hl).
  subst p1. cbn [world holders pkg]. split; [|split].
  - intro configs. rewrite instances_done by reflexivity. reflexivity.
  - exact Ho.
  - exists cf, (length (holders p)), (mkDatabaseHolder db).
    split; [exact Hc|]. split; [exact Hh|]. split.
    + rewrite nth_error_app2 by apply Nat.le_refl.
      rewrite Nat.sub_diag. reflexivity.
    + cbn [dbConnection]. repeat split; assumption.
Qed.

(** The process starts in a world whose driver refuses the first two
    attempts to connect; the first call names [sampleConfig], the later ones
    another configuration and nil. *)
Lemma NewDBHolderInstance_singleton_witness :
  Package.onceDBHolder (pkg (start (failsBefore 2))) = false /\
  fst (NewDBHolderInstance (Some sampleConfig) (start (failsBefore 2)))
    = Returns (Some 0) /\
  fst (instances [Some otherConfig; None; Some sampleConfig]
         (snd (NewDBHolderInstance (Some sampleConfig)
                 (start (failsBefore 2)))))
    = [Returns (Some 0); Returns (Some 0); Returns (Some 0)] /\
  opened (world (snd (NewDBHolderInstance (Some sampleConfig)
                        (start (failsBefore 2))))) = 1.
Proof.
  split; [reflexivity|]. split; [vm_compute; reflexivity|].
  assert (E : NewDBHolderInstance (Some sampleConfig) (start (failsBefore 2))
              = (Returns (Some 0),
                 snd (NewDBHolderInstance (Some sampleConfig)
                        (start (failsBefore 2)))))
    by (vm_compute; reflexivity).
  destruct (NewDBHolderInstance_singleton (Some sampleConfig)
              (start (failsBefore 2))
              (snd (NewDBHolderInstance (Some sampleConfig)
                      (start (failsBefore 2))))
              (Some 0) eq_refl E) as (I & O & _).
  split; [|exact O].
  rewrite (I [Some otherConfig; None; Some sampleConfig]). reflexivity.
Defined.

(** Beside C10: a first call with a nil configuration panics inside
    [onceDBHolder.Do], which marks the [sync.Once] all the same; a caller
    that recovers gets nil from every later call, and no connection is ever
    opened. *)
Lemma NewDBHolderInstance_after_panic (w : World) (config : option PgConfig) :
  fst (NewDBHolderInstance None (start w)) = Panics nilDereference /\
  fst (NewDBHolderInstance config (snd (NewDBHolderInstance None (start w))))
    = Returns None /\
  opened (world (snd (NewDBHolderInstance config
                        (snd (NewDBHolderInstance None (start w))))))
    = opened w.
Proof. repeat split; reflexivity. Qed.

(* ------------------------------------------------------------------ *)
(** ** Further properties of the transaction context *)

Lemma Begin_Active (c : transactionContext) (w : World) (id : UUID) :
  state c = Active -> entropy w (drawn w) = inl id ->
  Begin c w =
    ((id, None), c,
     logf LvlDebug (logger c) "use existing transaction: %v"
       (snd (NewRandom w))).
Proof.
  intros H He. apply state_Active in H. destruct H as [Hr Hi].
  unfold Begin, NewRandom. rewrite Hr, Hi, He. reflexivity.
Qed.

Lemma Commit_other (c : transactionContext) (w : World) (owner id : UUID) :
  state c = Active -> transactionUUID c = Some owner -> id <> owner ->
  Commit id c w = (None, c, w).
Proof.
  intros H Hu Hne. apply state_Active in H. destruct H as [Hr Hi].
  pose proof Hi as Hi'. apply inTransaction_spec in Hi'.
  destruct Hi' as (t & o & Ht & _).
  unfold Commit. rewrite Hr, Hi, Hu, Ht. cbn [negb].
  destruct (N.eqb owner id) eqn:E; [|reflexivity].
  apply N.eqb_eq in E. congruence.
Qed.

(** X1: [Begin] on an idle context with no handle, then [Commit] with the
    identifier [Begin] returned: the commit is asked of the driver on the
    transaction that [Begin] opened, its answer is the result, and the
    context is again exactly what it was before [Begin]. *)
Theorem Begin_then_Commit_restores
  (c : transactionContext) (w w2 : World) (id : UUID) :
  state c = Idle -> paired c -> entropy w (drawn w) = inl id ->
  fst (fst (fst (Begin c w))) = id /\
  Commit id (snd (fst (Begin c w))) w2 =
    (nextAnswer w2, c, snd (Commit id (snd (fst (Begin c w))) w2)) /\
  sqlLog (snd (Commit id (snd (fst (Begin c w))) w2))
    = (SqlCommit (length (sqlLog w)), nextAnswer w2) :: sqlLog w2.
Proof.
  intros H P He.
  destruct (Begin_Idle c w id H He) as (R & C & _ & _ & _).
  rewrite R, C. split; [reflexivity|].
  pose proof H as H'. apply state_Idle in H'. destruct H' as [Hr Hi].
  assert (Hc : mkTransactionContext (logger c) (dbHolder c) None None
                 (rollbacked c) = c).
  { destruct c as [l h t u r]. unfold inTransaction in Hi. cbn in *.
    destruct P as [[Pt Pu]|[Pt Pu]]; cbn in *.
    - subst. reflexivity.
    - destruct t, u; try discriminate; congruence. }
  rewrite (Commit_owner
             (mkTransactionContext (logger c) (dbHolder c)
                (Some (fst (gormBegin (dbConnection (dbHolder c))
                              (snd (NewRandom w)))))
                (Some id) (rollbacked c))
             w2 _ id Hr eq_refl eq_refl).
  cbn [logger dbHolder rollbacked fst snd]. rewrite Hc.
  split; [reflexivity|].
  unfold gormCommit, gormBegin, driverCall, NewRandom, nextAnswer.
  destruct (entropy w (drawn w)); destruct (driver w2 (length (sqlLog w2)));
    reflexivity.
Qed.

Lemma Begin_then_Commit_restores_witness :
  state fresh = Idle /\ paired fresh /\
  entropy calm (drawn calm) = inl 1%N /\
  snd (fst (Commit 1%N (begun calm) (begunWorld calm))) = fresh /\
  sqlLog (snd (Commit 1%N (begun calm) (begunWorld calm)))
    = [(SqlCommit 0, None); (SqlBegin 0, None)].
Proof.
  assert (P : paired fresh) by (left; split; reflexivity).
  split; [reflexivity|]. split; [exact P|]. split; [reflexivity|].
  destruct (Begin_then_Commit_restores fresh calm (begunWorld calm) 1%N
              eq_refl P eq_refl) as (_ & E & L).
  split.
  - change (begun calm) with (snd (fst (Begin fresh calm))).
    rewrite E. reflexivity.
  - exact L.
Defined.

(** X2: an outer and a nested caller on one idle context, the generator
    giving them different identifiers: the nested [Begin] asks nothing of
    the driver and reports no error, the nested caller's [Commit] does
    nothing, and the outer caller's [Commit] is the one commit the driver
    sees, on the transaction the outer [Begin] opened; the context ends
    idle. *)
Theorem nested_commit_is_left_to_the_owner
  (c : transactionContext) (w : World) (outer inner : UUID) :
  state c = Idle ->
  entropy w (drawn w) = inl outer -> entropy w (S (drawn w)) = inl inner ->
  inner <> outer ->
  fst (fst (run [CallBegin; CallBegin; CallCommit inner; CallCommit outer]
              c w))
    = [BeginReply outer (nextAnswer w); BeginReply inner None;
       ErrorReply None;
       ErrorReply (driver w (S (length (sqlLog w))))] /\
  state (snd (fst (run [CallBegin; CallBegin; CallCommit inner;
                        CallCommit outer] c w))) = Idle /\
  sqlLog (snd (run [CallBegin; CallBegin; CallCommit inner; CallCommit outer]
                 c w))
    = (SqlCommit (length (sqlLog w)), driver w (S (length (sqlLog w))))
      :: (SqlBegin (sqlObj (dbConnection (dbHolder c))), nextAnswer w)
      :: sqlLog w.
Proof.
  intros H He1 He2 Hne. apply state_Idle in H. destruct H as [Hr Hi].
  unfold wasRollbacked in Hr.
  assert (Hn : N.eqb outer inner = false).
  { apply N.eqb_neq. congruence. }
  unfold run, invoke, Begin, Commit, NewRandom, gormBegin, gormCommit,
    driverCall, dispose, nextAnswer, state, wasRollbacked.
  rewrite Hr, Hi, He1. cbn.
  destruct (driver w (length (sqlLog w))); cbn;
    rewrite He2; cbn; rewrite Hn; cbn; rewrite N.eqb_refl; cbn;
    destruct (driver w (S (length (sqlLog w)))); cbn;
    repeat split; reflexivity.
Qed.

Lemma nested_commit_is_left_to_the_owner_witness :
  state fresh = Idle /\
  entropy calm (drawn calm) = inl 1%N /\
  entropy calm (S (drawn calm)) = inl 2%N /\
  2%N <> 1%N /\
  fst (fst (run [CallBegin; CallBegin; CallCommit 2%N; CallCommit 1%N]
              fresh calm))
    = [BeginReply 1%N None; BeginReply 2%N None; ErrorReply None;
       ErrorReply None] /\
  sqlLog (snd (run [CallBegin; CallBegin; CallCommit 2%N; CallCommit 1%N]
                 fresh calm))
    = [(SqlCommit 0, None); (SqlBegin 0, None)].
Proof.
  assert (N : 2%N <> 1%N) by discriminate.
  split; [reflexivity|]. split; [reflexivity|]. split; [reflexivity|].
  split; [exact N|].
  destruct (nested_commit_is_left_to_the_owner fresh calm 1%N 2%N
              eq_refl eq_refl eq_refl N) as (R & _ & L).
  split; [exact R | exact L].
Defined.

(** X3: once the driver has refused a [Begin] on an idle context, the next
    [Begin] (its identifier made) reports no error although it asks nothing
    of the driver, and [Provider] hands out the handle that carries the
    driver's error. *)
Theorem Begin_after_failed_Begin_reports_success
  (c : transactionContext) (w w2 : World) (id id2 : UUID) (e : error) :
  state c = Idle -> entropy w (drawn w) = inl id -> nextAnswer w = Some e ->
  entropy w2 (drawn w2) = inl id2 ->
  fst (fst (Begin (snd (fst (Begin c w))) w2)) = (id2, None) /\
  sqlLog (snd (Begin (snd (fst (Begin c w))) w2)) = sqlLog w2 /\
  exists t : DB,
    fst (Provider (snd (fst (Begin c w))) w2) = Some t /\ Error t = Some e.
Proof.
  intros H He Hn He2.
  destruct (Begin_Idle c w id H He) as (_ & C & Et & _ & _).
  apply state_Idle in H. destruct H as [Hr _]. unfold wasRollbacked in Hr.
  rewrite C.
  assert (A : state (mkTransactionContext (logger c) (dbHolder c)
                       (Some (fst (gormBegin (dbConnection (dbHolder c))
                                     (snd (NewRandom w)))))
                       (Some id) (rollbacked c)) = Active).
  { unfold state, wasRollbacked, inTransaction. cbn. rewrite Hr. reflexivity. }
  rewrite (Begin_Active _ w2 id2 A He2). cbn [fst snd].
  split; [reflexivity|]. split.
  - unfold NewRandom. rewrite He2. reflexivity.
  - eexists. unfold Provider, wasRollbacked, inTransaction. cbn. rewrite Hr.
    split; [reflexivity|]. rewrite <- Hn. exact Et.
Qed.

Lemma Begin_after_failed_Begin_reports_success_witness :
  state fresh = Idle /\
  entropy (failsAt 0) (drawn (failsAt 0)) = inl 1%N /\
  nextAnswer (failsAt 0) = Some connectionLost /\
  entropy (begunWorld (failsAt 0)) (drawn (begunWorld (failsAt 0)))
    = inl 2%N /\
  fst (fst (Begin (begun (failsAt 0)) (begunWorld (failsAt 0))))
    = (2%N, None) /\
  sqlLog (snd (Begin (begun (failsAt 0)) (begunWorld (failsAt 0))))
    = [(SqlBegin 0, Some connectionLost)].
Proof.
  split; [reflexivity|]. split; [reflexivity|]. split; [reflexivity|].
  split; [reflexivity|].
  destruct (Begin_after_failed_Begin_reports_success fresh (failsAt 0)
              (begunWorld (failsAt 0)) 1%N 2%N connectionLost
              eq_refl eq_refl eq_refl eq_refl) as (R & L & _).
  split; [exact R | exact L].
Defined.

(** X4: [Rollback] on an active context, by whoever calls it (no identifier
    is asked for): the driver is asked once to roll back the stored handle,
    its answer is the result as it is, and the handle and the identifier are
    cleared with the flag set. *)
Theorem Rollback_active_reports_driver_answer
  (c : transactionContext) (w : World) :
  state c = Active ->
  exists t : DB,
    tx c = Some t /\
    fst (fst (Rollback c w)) = nextAnswer w /\
    sqlLog (snd (Rollback c w))
      = (SqlRollback (sqlObj t), nextAnswer w) :: sqlLog w /\
    tx (snd (fst (Rollback c w))) = None /\
    transactionUUID (snd (fst (Rollback c w))) = None /\
    state (snd (fst (Rollback c w))) = RolledBack.
Proof.
  intro H. pose proof H as Hs. apply state_Active in Hs.
  destruct Hs as [_ Hi]. apply inTransaction_spec in Hi.
  destruct Hi as (t & o & Ht & _). exists t. split; [exact Ht|].
  rewrite (Rollback_Active c w t H Ht). cbn [fst snd].
  unfold nextAnswer, gormRollback, driverCall.
  destruct (driver w (length (sqlLog w))); repeat split; reflexivity.
Qed.

Lemma Rollback_active_reports_driver_answer_witness :
  state (begun (failsAt 1)) = Active /\
  fst (fst (Rollback (begun (failsAt 1)) (begunWorld (failsAt 1))))
    = Some connectionLost /\
  sqlLog (snd (Rollback (begun (failsAt 1)) (begunWorld (failsAt 1))))
    = [(SqlRollback 0, Some connectionLost); (SqlBegin 0, None)] /\
  state (snd (fst (Rollback (begun (failsAt 1)) (begunWorld (failsAt 1)))))
    = RolledBack.
Proof.
  split; [reflexivity|].
  destruct (Rollback_active_reports_driver_answer (begun (failsAt 1))
              (begunWorld (failsAt 1)) eq_refl)
    as (t & Ht & R & L & _ & _ & S).
  split; [exact R|]. split; [|exact S].
  rewrite L. vm_compute in Ht. inversion Ht. reflexivity.
Defined.

(** X5: when [uuid.NewRandom] fails on a context that is not rolled back,
    [Begin] returns [Nil] with the generator's error, asks nothing of the
    driver and leaves the context as it was, also when the context is active
    and there was a transaction to join. *)
Theorem Begin_generator_failure
  (c : transactionContext) (w : World) (e : error) :
  wasRollbacked c = false -> entropy w (drawn w) = inr e ->
  fst (Begin c w) = ((Nil, Some e), c) /\
  sqlLog (snd (Begin c w)) = sqlLog w /\
  drawn (snd (Begin c w)) = S (drawn w).
Proof.
  intros Hr He. unfold Begin, NewRandom. rewrite Hr, He.
  repeat split; reflexivity.
Qed.

Lemma Begin_generator_failure_witness :
  wasRollbacked fresh = false /\
  entropy noEntropy (drawn noEntropy) = inr (ErrLibrary "unexpected EOF") /\
  fst (Begin fresh noEntropy) = ((Nil, Some (ErrLibrary "unexpected EOF")), fresh)
  /\ sqlLog (snd (Begin fresh noEntropy)) = [].
Proof.
  split; [reflexivity|]. split; [reflexivity|].
  destruct (Begin_generator_failure fresh noEntropy
              (ErrLibrary "unexpected EOF") eq_refl eq_refl) as (R & L & _).
  split; [exact R | exact L].
Defined.

(** One call keeps the account of transactions: what was begun is what was
    ended plus what is held. *)
Lemma balance_invoke (op : call) (c : transactionContext) (w : World) :
  paired c ->
  begins (snd (invoke op c w)) + ends w + held c
    = begins w + ends (snd (invoke op c w)) + held (after op c w).
Proof.
  intro P. apply pairedb_paired in P.
  destruct c as [l h t u r].
  unfold after, invoke, pairedb, begins, ends, held in *. cbn in P.
  destruct op.
  - unfold Begin, NewRandom, inTransaction, wasRollbacked, gormBegin, driverCall.
    cbn. destruct r; [cbn; lia|].
    destruct (entropy w (drawn w)); cbn; [|lia].
    destruct t, u; try discriminate; cbn; [lia|].
    destruct (driver w (length (sqlLog w))); cbn; lia.
  - unfold Provider, wasRollbacked, inTransaction. cbn.
    destruct r; cbn; [lia|]. destruct t, u; cbn; lia.
  - unfold Commit, inTransaction, wasRollbacked, gormCommit, driverCall, dispose.
    cbn. destruct r; [cbn; lia|].
    destruct t, u; try discriminate; cbn; [|lia].
    destruct (negb (N.eqb u id)); cbn; [lia|].
    destruct (driver w (length (sqlLog w))); cbn; lia.
  - unfold Rollback, inTransaction, wasRollbacked, gormRollback, driverCall,
      disposeAfterRollback, dispose.
    cbn. destruct r; [cbn; lia|].
    destruct t, u; try discriminate; cbn; [|lia].
    destruct (driver w (length (sqlLog w))); cbn; lia.
Qed.

Lemma run_cons (op : call) (ops : list call) (c : transactionContext)
  (w : World) :
  run (op :: ops) c w =
    (fst (fst (invoke op c w))
       :: fst (fst (run ops (after op c w) (snd (invoke op c w)))),
     snd (fst (run ops (after op c w) (snd (invoke op c w)))),
     snd (run ops (after op c w) (snd (invoke op c w)))).
Proof.
  cbn [run]. unfold after.
  destruct (invoke op c w) as [[r c1] w1]. cbn [fst snd].
  destruct (run ops c1 w1) as [[rs c2] w2]. reflexivity.
Qed.

(** X6: no transaction is lost or ended twice.  Over any run of calls on a
    context made by [newTransactionContext], the begins the driver was
    asked for are the commits and rollbacks it was asked for, plus one if the
    context ends in a transaction. *)
Theorem transactions_are_accounted_for
  (ops : list call) (l : Logger) (h : DatabaseHolder) (w : World) :
  begins (snd (run ops (newTransactionContext l h) w)) + ends w
    = begins w + ends (snd (run ops (newTransactionContext l h) w))
      + held (snd (fst (run ops (newTransactionContext l h) w))).
Proof.
  assert (G : forall ops c w, paired c ->
            begins (snd (run ops c w)) + ends w + held c
              = begins w + ends (snd (run ops c w))
                + held (snd (fst (run ops c w)))).
  { clear. induction ops as [|op ops IH]; intros c w P.
    - cbn. lia.
    - rewrite run_cons. cbn [fst snd].
      pose proof (balance_invoke op c w P) as B.
      pose proof (IH (after op c w) (snd (invoke op c w))
                    (paired_after op c w P)) as I.
      lia. }
  pose proof (G ops (newTransactionContext l h) w
                ltac:(left; split; reflexivity)) as B.
  change (held (newTransactionContext l h)) with 0 in B. lia.
Qed.

(** X7: a context that has been rolled back is never changed again and
    never reaches the driver or the identifier generator, whatever is
    called on it. *)
Theorem rolled_back_context_is_inert
  (ops : list call) (c : transactionContext) (w : World) :
  rollbacked c = true ->
  snd (fst (run ops c w)) = c /\
  sqlLog (snd (run ops c w)) = sqlLog w /\
  drawn (snd (run ops c w)) = drawn w.
Proof.
  intro H. revert w. induction ops as [|op ops IH]; intro w.
  - repeat split; reflexivity.
  - rewrite run_cons. cbn [fst snd].
    rewrite (rollbacked_after op c w H).
    assert (W : sqlLog (snd (invoke op c w)) = sqlLog w /\
                drawn (snd (invoke op c w)) = drawn w).
    { unfold invoke. destruct op.
      - rewrite (Begin_RolledBack c w H). split; reflexivity.
      - unfold Provider, wasRollbacked. rewrite H. split; reflexivity.
      - rewrite (Commit_RolledBack id c w H). split; reflexivity.
      - rewrite (Rollback_RolledBack c w H). split; reflexivity. }
    destruct W as [Ws Wd].
    destruct (IH (snd (invoke op c w))) as (Ic & Is & Id).
    rewrite Ic, Is, Id. repeat split; assumption.
Qed.

Lemma rolled_back_context_is_inert_witness :
  rollbacked (snd (fst (Rollback (begun calm) (begunWorld calm)))) = true /\
  sqlLog (snd (run [CallBegin; CallProvider; CallCommit 1%N; CallRollback]
                 (snd (fst (Rollback (begun calm) (begunWorld calm))))
                 (snd (Rollback (begun calm) (begunWorld calm)))))
    = [(SqlRollback 0, None); (SqlBegin 0, None)].
Proof.
  split; [reflexivity|].
  destruct (rolled_back_context_is_inert
              [CallBegin; CallProvider; CallCommit 1%N; CallRollback]
              (snd (fst (Rollback (begun calm) (begunWorld calm))))
              (snd (Rollback (begun calm) (begunWorld calm))) eq_refl)
    as (_ & L & _).
  rewrite L. reflexivity.
Defined.

(* ------------------------------------------------------------------ *)
(** ** Further properties of [Open] and [NewConnect] *)

(** One pass of the loop that the driver refuses, with passes left: the
    attempt is recorded, four seconds are slept, and the loop goes on. *)
Lemma OpenLoop_pass_refused
  (more : nat) (cf : PgConfig) (lg : Logger) (w : World) (e : error) :
  driver w (length (sqlLog w)) = Some e ->
  exists w4 : World,
    OpenLoop (S more) (Some cf) lg w = OpenLoop more (Some cf) lg w4 /\
    driver w4 = driver w /\ fatalExits w4 = fatalExits w /\
    sqlLog w4 = (SqlOpen (connectionString cf), Some e) :: sqlLog w /\
    slept w4 = defaultConnectionSecondsBetweenRetries + slept w.
Proof.
  intro D. eexists. split.
  - cbn [OpenLoop]. unfold gormOpen, driverCall. cbn. rewrite D. reflexivity.
  - repeat split; reflexivity.
Qed.

(** The last pass, refused. *)
Lemma OpenLoop_last_refused
  (cf : PgConfig) (lg : Logger) (w : World) (e : error) :
  driver w (length (sqlLog w)) = Some e ->
  exists (db : DB) (w5 : World),
    OpenLoop 0 (Some cf) lg w =
      (if fatalExits w then Exits else Returns (db, Some e), w5) /\
    sqlObj db = length (sqlLog w) /\
    sqlLog w5 = (SqlOpen (connectionString cf), Some e) :: sqlLog w /\
    slept w5 = defaultConnectionSecondsBetweenRetries + slept w.
Proof.
  intro D. eexists. eexists. split.
  - cbn [OpenLoop]. unfold gormOpen, driverCall. cbn. rewrite D.
    match goal with
    | |- (if ?b then (?x, ?W) else (?y, ?W)) = _ =>
        transitivity (if b then x else y, W);
        [destruct b; reflexivity | reflexivity]
    end.
  - repeat split; reflexivity.
Qed.

(** A pass the driver accepts. *)
Lemma OpenLoop_pass_accepted
  (more : nat) (cf : PgConfig) (lg : Logger) (w : World) :
  driver w (length (sqlLog w)) = None ->
  exists (db : DB) (w3 : World),
    OpenLoop more (Some cf) lg w = (Returns (db, None), w3) /\
    sqlLog w3 = (SqlOpen (connectionString cf), None) :: sqlLog w /\
    slept w3 = slept w /\
    sqlObj db = length (sqlLog w) /\ isTx db = false /\ Error db = None /\
    dbLogger db = Some lg /\
    maxOpenConns db = MaxOpenConnections cf /\
    connMaxLifetime db
      = wrap64 (wrap64 (ConnectionMaxLifetimeMS cf) * Millisecond) /\
    logMode db = LogMode cf.
Proof.
  intro D. eexists. eexists. split.
  - destruct more; cbn [OpenLoop]; unfold gormOpen, driverCall; cbn;
      rewrite D; reflexivity.
  - repeat split; reflexivity.
Qed.

Lemma refusesNext_head (n : nat) (w : World) :
  refusesNext (S n) w -> exists e, driver w (length (sqlLog w)) = Some e.
Proof.
  intro R. specialize (R 0 (Nat.lt_0_succ n)). rewrite Nat.add_0_r in R.
  destruct (driver w (length (sqlLog w))) as [e|]; [exists e; reflexivity|].
  contradiction R. reflexivity.
Qed.

Lemma refusesNext_tail (n : nat) (w w4 : World) (ev : sqlEvent * option error) :
  refusesNext (S n) w -> driver w4 = driver w -> sqlLog w4 = ev :: sqlLog w ->
  refusesNext n w4.
Proof.
  intros R D L j Hj. rewrite D, L. cbn [length].
  replace (S (length (sqlLog w)) + j) with (length (sqlLog w) + S j) by lia.
  apply R. lia.
Qed.

(** The loop when the driver refuses every pass. *)
Lemma OpenLoop_exhausted (more : nat) :
  forall (cf : PgConfig) (lg : Logger) (w : World),
  refusesNext (S more) w ->
  exists (db : DB) (e : error) (w5 : World),
    OpenLoop more (Some cf) lg w =
      (if fatalExits w then Exits else Returns (db, Some e), w5) /\
    driver w (length (sqlLog w) + more) = Some e /\
    attempts w5 = attempts w + S more /\
    opened w5 = opened w /\
    slept w5 = slept w + defaultConnectionSecondsBetweenRetries * S more.
Proof.
  induction more as [|more IH]; intros cf lg w R;
    destruct (refusesNext_head _ _ R) as (e & D).
  - destruct (OpenLoop_last_refused cf lg w e D) as (db & w5 & E & _ & L & Hs).
    exists db, e, w5. rewrite Nat.add_0_r. split; [exact E|].
    split; [exact D|]. unfold attempts, opened. rewrite L, Hs. cbn.
    repeat split; lia.
  - destruct (OpenLoop_pass_refused more cf lg w e D)
      as (w4 & E & Dr & F & L & Hs).
    destruct (IH cf lg w4 (refusesNext_tail _ _ _ _ R Dr L))
      as (db & e' & w5 & E' & D' & A & O & Hs').
    exists db, e', w5. rewrite E, E', F. split; [reflexivity|].
    rewrite Dr, L in D'. cbn [length] in D'.
    replace (length (sqlLog w) + S more) with (S (length (sqlLog w)) + more)
      by lia.
    split; [exact D'|].
    unfold attempts, opened in *. rewrite L in A, O. cbn in A, O.
    rewrite A, O, Hs', Hs. cbn. repeat split; lia.
Qed.

(** The loop when the driver refuses [i] passes and accepts the next. *)
Lemma OpenLoop_accepted_after (i : nat) :
  forall (more : nat) (cf : PgConfig) (lg : Logger) (w : World),
  i <= more -> refusesNext i w ->
  driver w (length (sqlLog w) + i) = None ->
  exists (db : DB) (w3 : World),
    OpenLoop more (Some cf) lg w = (Returns (db, None), w3) /\
    attempts w3 = attempts w + S i /\
    opened w3 = S (opened w) /\
    slept w3 = slept w + defaultConnectionSecondsBetweenRetries * i /\
    sqlObj db = length (sqlLog w) + i /\ isTx db = false /\
    Error db = None /\ dbLogger db = Some lg /\
    maxOpenConns db = MaxOpenConnections cf /\
    connMaxLifetime db
      = wrap64 (wrap64 (ConnectionMaxLifetimeMS cf) * Millisecond) /\
    logMode db = LogMode cf.
Proof.
  induction i as [|i IH]; intros more cf lg w Hle R D.
  - rewrite Nat.add_0_r in D.
    destruct (OpenLoop_pass_accepted more cf lg w D)
      as (db & w3 & E & L & Hs & Q & rest).
    exists db, w3. split; [exact E|].
    unfold attempts, opened. rewrite L, Hs, Q. cbn.
    split; [lia|]. split; [reflexivity|]. split; [lia|].
    split; [lia | exact rest].
  - destruct more as [|more]; [lia|].
    destruct (refusesNext_head _ _ R) as (e & De).
    destruct (OpenLoop_pass_refused more cf lg w e De)
      as (w4 & E & Dr & _ & L & Hs).
    assert (D4 : driver w4 (length (sqlLog w4) + i) = None).
    { rewrite Dr, L. cbn [length].
      replace (S (length (sqlLog w)) + i) with (length (sqlLog w) + S i)
        by lia.
      exact D. }
    destruct (IH more cf lg w4 ltac:(lia)
                (refusesNext_tail _ _ _ _ R Dr L) D4)
      as (db & w3 & E' & A & O & Hs' & Q & rest).
    exists db, w3. rewrite E. split; [exact E'|].
    unfold attempts, opened in *. rewrite L in A, O, Q. cbn in A, O, Q.
    rewrite A, O, Hs', Hs, Q. cbn.
    split; [lia|]. split; [lia|]. split; [lia|]. split; [lia|]. exact rest.
Qed.

(** X8: when the driver refuses [i] attempts and accepts the next, with
    fewer than eight refusals, [Open] returns a handle and no error after
    [i + 1] attempts and four seconds of sleep for each refusal; one
    connection has been opened, and the handle has the logger and the
    settings of the configuration (the lifetime in nanoseconds, as an
    [int64]). *)
Theorem Open_connects_after_refusals
  (i : nat) (cf : PgConfig) (w : World) :
  i < defaultConnectionNumberOfRetries -> refusesNext i w ->
  driver w (length (sqlLog w) + i) = None ->
  exists (db : DB) (w3 : World),
    Open (Some cf) w = (Returns (db, None), w3) /\
    attempts w3 = attempts w + S i /\
    opened w3 = S (opened w) /\
    slept w3 = slept w + defaultConnectionSecondsBetweenRetries * i /\
    isTx db = false /\ Error db = None /\
    dbLogger db = Some FromDefaultContext /\
    maxOpenConns db = MaxOpenConnections cf /\
    connMaxLifetime db
      = wrap64 (wrap64 (ConnectionMaxLifetimeMS cf) * Millisecond) /\
    logMode db = LogMode cf.
Proof.
  intros Hi R D. unfold Open.
  destruct (OpenLoop_accepted_after i (defaultConnectionNumberOfRetries - 1)
              cf FromDefaultContext w ltac:(unfold
                defaultConnectionNumberOfRetries in *; cbn; lia) R D)
    as (db & w3 & E & A & O & Hs & _ & rest).
  exists db, w3. repeat split; try assumption; apply rest.
Qed.

Lemma refusesNext_failsBefore (k : nat) : refusesNext k (failsBefore k).
Proof.
  intros j Hj. unfold failsBefore, worldWith.
  cbn [driver sqlLog Datatypes.length Nat.add].
  apply Nat.ltb_lt in Hj. rewrite Hj. discriminate.
Defined.

Lemma Open_connects_after_refusals_witness :
  2 < defaultConnectionNumberOfRetries /\
  refusesNext 2 (failsBefore 2) /\
  driver (failsBefore 2) (length (sqlLog (failsBefore 2)) + 2) = None /\
  exists (db : DB) (w3 : World),
    Open (Some sampleConfig) (failsBefore 2) = (Returns (db, None), w3) /\
    attempts w3 = 3 /\ opened w3 = 1 /\ slept w3 = 8 /\
    maxOpenConns db = 5%Z /\ connMaxLifetime db = 60000000000%Z.
Proof.
  assert (B : 2 < defaultConnectionNumberOfRetries)
    by (unfold defaultConnectionNumberOfRetries; lia).
  split; [exact B|]. split; [exact (refusesNext_failsBefore 2)|].
  split; [reflexivity|].
  destruct (Open_connects_after_refusals 2 sampleConfig (failsBefore 2)
              B (refusesNext_failsBefore 2) eq_refl)
    as (db & w3 & E & A & O & Hs & _ & _ & _ & M & C & _).
  exists db, w3. split; [exact E|]. split; [exact A|]. split; [exact O|].
  split; [exact Hs|]. split; [exact M | exact C].
Defined.

(** X9: when the driver refuses eight attempts in a row, [Open] gives no
    connection: after the eighth refusal and [Fatalf] the process is ended,
    or, should [Fatalf] come back, [Open] returns the driver's last error.
    Eight attempts were made and thirty-two seconds slept, four of them
    after the last refusal. *)
Theorem Open_exhausted (cf : PgConfig) (w : World) :
  refusesNext defaultConnectionNumberOfRetries w ->
  exists (db : DB) (e : error) (w5 : World),
    Open (Some cf) w =
      (if fatalExits w then Exits else Returns (db, Some e), w5) /\
    driver w (length (sqlLog w) + 7) = Some e /\
    attempts w5 = attempts w + 8 /\
    opened w5 = opened w /\
    slept w5 = slept w + 32.
Proof.
  intro R. unfold Open.
  destruct (OpenLoop_exhausted (defaultConnectionNumberOfRetries - 1) cf
              FromDefaultContext w R) as (db & e & w5 & E & D & A & O & Hs).
  exists db, e, w5. split; [exact E|]. split; [exact D|].
  split; [exact A|]. split; [exact O | exact Hs].
Qed.

Lemma Open_exhausted_witness :
  refusesNext defaultConnectionNumberOfRetries (failsBefore 8) /\
  fst (Open (Some sampleConfig) (failsBefore 8)) = Exits /\
  exists w5 : World,
    snd (Open (Some sampleConfig) (failsBefore 8)) = w5 /\
    attempts w5 = 8 /\ opened w5 = 0 /\ slept w5 = 32.
Proof.
  split; [exact (refusesNext_failsBefore 8)|].
  destruct (Open_exhausted sampleConfig (failsBefore 8)
              (refusesNext_failsBefore 8))
    as (db & e & w5 & E & _ & A & O & Hs).
  rewrite E. split; [reflexivity|].
  exists w5. split; [reflexivity|]. split; [exact A|].
  split; [exact O | exact Hs].
Defined.

(** The loop, whatever the driver answers. *)
Lemma OpenLoop_footprint (more : nat) :
  forall (cf : PgConfig) (lg : Logger) (w : World),
  exists evs : list (sqlEvent * option error),
    sqlLog (snd (OpenLoop more (Some cf) lg w)) = (evs ++ sqlLog w)%list /\
    Forall (fun ev => fst ev = SqlOpen (connectionString cf)) evs /\
    length evs <= S more /\
    length (filter isOpened evs) <= 1 /\
    slept (snd (OpenLoop more (Some cf) lg w))
      = slept w
        + defaultConnectionSecondsBetweenRetries
          * length (filter (fun ev => negb (isOpened ev)) evs).
Proof.
  induction more as [|more IH]; intros cf lg w;
    destruct (driver w (length (sqlLog w))) as [e|] eqn:D.
  - destruct (OpenLoop_last_refused cf lg w e D) as (db & w5 & E & _ & L & Hs).
    rewrite E. cbn [snd].
    exists [(SqlOpen (connectionString cf), Some e)].
    rewrite L, Hs. cbn. repeat split; try lia.
    constructor; [reflexivity | constructor].
  - destruct (OpenLoop_pass_accepted 0 cf lg w D) as (db & w3 & E & L & Hs & _).
    rewrite E. cbn [snd].
    exists [(SqlOpen (connectionString cf), None)].
    rewrite L, Hs. cbn. repeat split; try lia.
    constructor; [reflexivity | constructor].
  - destruct (OpenLoop_pass_refused more cf lg w e D)
      as (w4 & E & _ & _ & L & Hs).
    destruct (IH cf lg w4) as (evs & L' & F & B & O & Hs').
    rewrite E. exists (evs ++ [(SqlOpen (connectionString cf), Some e)])%list.
    rewrite L', Hs', L, Hs, <- app_assoc. cbn [app].
    rewrite !filter_app, !length_app. cbn.
    split; [reflexivity|]. split.
    + apply Forall_app. split; [exact F|].
      constructor; [reflexivity | constructor].
    + repeat split; lia.
  - destruct (OpenLoop_pass_accepted (S more) cf lg w D)
      as (db & w3 & E & L & Hs & _).
    rewrite E. cbn [snd].
    exists [(SqlOpen (connectionString cf), None)].
    rewrite L, Hs. cbn. repeat split; try lia.
    constructor; [reflexivity | constructor].
Qed.

(** X10: whatever the driver answers, [Open] asks it for nothing but
    connections, at most eight, each with the connection string of the
    configuration; at most one of them is opened, and four seconds are slept
    for each one refused. *)
Theorem Open_footprint (cf : PgConfig) (w : World) :
  exists evs : list (sqlEvent * option error),
    sqlLog (snd (Open (Some cf) w)) = (evs ++ sqlLog w)%list /\
    Forall (fun ev => fst ev = SqlOpen (connectionString cf)) evs /\
    length evs <= defaultConnectionNumberOfRetries /\
    length (filter isOpened evs) <= 1 /\
    slept (snd (Open (Some cf) w))
      = slept w
        + defaultConnectionSecondsBetweenRetries
          * length (filter (fun ev => negb (isOpened ev)) evs).
Proof.
  unfold Open.
  exact (OpenLoop_footprint (defaultConnectionNumberOfRetries - 1) cf
           FromDefaultContext w).
Qed.

Lemma OpenLoop_ignores_SSLMode (more : nat) :
  forall (mode : string) (cf : PgConfig) (lg : Logger) (w : World),
  OpenLoop more (Some (withSSLMode mode cf)) lg w
    = OpenLoop more (Some cf) lg w.
Proof.
  induction more as [|more IH]; intros mode cf lg w; cbn [OpenLoop];
    change (connectionString (withSSLMode mode cf))
      with (connectionString cf);
    destruct (gormOpen (connectionString cf) _) as [[db err] w2];
    destruct err as [e|]; try reflexivity.
  apply IH.
Qed.

(** X11: [SSLMode] is never read: [Open] does the same, call for call,
    whatever the configuration says there, and asks for [sslmode=disable]. *)
Theorem Open_ignores_SSLMode (mode : string) (cf : PgConfig) (w : World) :
  Open (Some (withSSLMode mode cf)) w = Open (Some cf) w /\
  connectionString (withSSLMode mode cf) = connectionString cf /\
  exists before : string,
    connectionString cf
      = before ++ dsnLine "sslmode" "disable" ++ nl ++ tab ++ tab.
Proof.
  split; [apply OpenLoop_ignores_SSLMode|]. split; [reflexivity|].
  exists (dsnLine "host" (Host cf) ++ dsnLine "user" (User cf) ++
          dsnLine "password" (Password cf) ++ dsnLine "dbname" (DBName cf) ++
          dsnLine "search_path" (Schema cf)).
  unfold connectionString.
  assert (A : forall a b c : string, (a ++ b) ++ c = a ++ b ++ c).
  { intros a b c. induction a as [|x a IH]; cbn; [reflexivity|].
    rewrite IH. reflexivity. }
  rewrite !A. reflexivity.
Qed.

(** X12: [setSQLSettings] hands on the lifetime in nanoseconds: exactly
    [ConnectionMaxLifetimeMS] times a million as long as that fits an
    [int64], and always a value of an [int64]; the maximum of open
    connections is handed on as it is, and nothing else of the handle
    changes. *)
Theorem setSQLSettings_lifetime (db : DB) (cfg : PgConfig) :
  (- 2 ^ 63 <= connMaxLifetime (setSQLSettings db cfg) < 2 ^ 63)%Z /\
  maxOpenConns (setSQLSettings db cfg) = MaxOpenConnections cfg /\
  sqlObj (setSQLSettings db cfg) = sqlObj db /\
  Error (setSQLSettings db cfg) = Error db /\
  logMode (setSQLSettings db cfg) = logMode db /\
  isTx (setSQLSettings db cfg) = isTx db /\
  dbLogger (setSQLSettings db cfg) = dbLogger db /\
  ((- 2 ^ 63 <= ConnectionMaxLifetimeMS cfg * 1000000 < 2 ^ 63)%Z ->
   connMaxLifetime (setSQLSettings db cfg)
     = (ConnectionMaxLifetimeMS cfg * 1000000)%Z).
Proof.
  unfold setSQLSettings, wrap64, Millisecond. cbn [connMaxLifetime
    maxOpenConns sqlObj Error logMode isTx dbLogger].
  split.
  - pose proof (Z.mod_pos_bound
                  (((ConnectionMaxLifetimeMS cfg + 2 ^ 63) mod 2 ^ 64
                    - 2 ^ 63) * 1000000 + 2 ^ 63) (2 ^ 64) ltac:(lia)).
    lia.
  - repeat split. intro H.
    rewrite (Z.mod_small (ConnectionMaxLifetimeMS cfg + 2 ^ 63)) by lia.
    replace (ConnectionMaxLifetimeMS cfg + 2 ^ 63 - 2 ^ 63)%Z
      with (ConnectionMaxLifetimeMS cfg) by lia.
    rewrite Z.mod_small by lia. lia.
Qed.

Lemma setSQLSettings_lifetime_witness :
  (- 2 ^ 63 <= ConnectionMaxLifetimeMS sampleConfig * 1000000 < 2 ^ 63)%Z /\
  connMaxLifetime (setSQLSettings (dbConnection sampleHolder) sampleConfig)
    = 60000000000%Z.
Proof.
  assert (B : (- 2 ^ 63 <= ConnectionMaxLifetimeMS sampleConfig * 1000000
               < 2 ^ 63)%Z) by (cbn; lia).
  split; [exact B|].
  destruct (setSQLSettings_lifetime (dbConnection sampleHolder) sampleConfig)
    as (_ & _ & _ & _ & _ & _ & _ & X).
  rewrite (X B). reflexivity.
Defined.

Lemma OpenLoop_returned_handle (more : nat) :
  forall (cfg : option PgConfig) (lg : Logger) (w w1 : World) (db : DB),
  OpenLoop more cfg lg w = (Returns (db, None), w1) ->
  Error db = None /\ dbLogger db = Some lg.
Proof.
  induction more as [|more IH]; intros cfg lg w w1 db H;
    destruct cfg as [cf|]; try discriminate H;
    cbn [OpenLoop] in H; unfold gormOpen, driverCall in H; cbn in H;
    destruct (driver w (length (sqlLog w))) as [e|] eqn:D.
  - destruct (fatalExits w); discriminate H.
  - inversion H; subst. split; reflexivity.
  - apply IH in H. exact H.
  - inversion H; subst. split; reflexivity.
Qed.

(** X13: [NewConnect] never returns an error to its caller.  When it
    returns, its configuration was not nil, exactly one connection has been
    opened, by the latest call the driver has recorded, and the handle
    returned is the handle of that very call: on the sql object that call
    made, not a transaction, free of error, with the default logger and the
    settings of the configuration. *)
Theorem NewConnect_returns_a_connection
  (config : option PgConfig) (w w1 : World) (db : DB) :
  NewConnect config w = (Returns db, w1) ->
  exists cf : PgConfig,
    config = Some cf /\
    opened w1 = S (opened w) /\
    hd_error (sqlLog w1) = Some (SqlOpen (connectionString cf), None) /\
    sqlObj db = length (sqlLog w1) - 1 /\
    isTx db = false /\ Error db = None /\
    dbLogger db = Some FromDefaultContext /\
    maxOpenConns db = MaxOpenConnections cf /\
    logMode db = LogMode cf.
Proof.
  intro H. unfold NewConnect, Open in H.
  destruct (OpenLoop (defaultConnectionNumberOfRetries - 1) config
              FromDefaultContext w) as [[[d [e|]]|v|] w2] eqn:L;
    try discriminate H.
  inversion H; subst.
  destruct (OpenLoop_connected _ _ _ _ _ _ L)
    as (cf & Hc & Ho & Hd & Hq & Ht & Hm & Hl).
  destruct (OpenLoop_returned_handle _ _ _ _ _ _ L) as (He & Hg).
  exists cf. repeat split; assumption.
Qed.

Lemma NewConnect_returns_a_connection_witness :
  NewConnect (Some sampleConfig) (failsBefore 2)
    = (Returns (mkDB 2 false None (Some 0) true 5%Z 60000000000%Z),
       snd (NewConnect (Some sampleConfig) (failsBefore 2))) /\
  opened (snd (NewConnect (Some sampleConfig) (failsBefore 2))) = 1.
Proof.
  assert (E : NewConnect (Some sampleConfig) (failsBefore 2)
              = (Returns (mkDB 2 false None (Some 0) true 5%Z 60000000000%Z),
                 snd (NewConnect (Some sampleConfig) (failsBefore 2))))
    by (vm_compute; reflexivity).
  split; [exact E|].
  destruct (NewConnect_returns_a_connection _ _ _ _ E) as (cf & _ & O & _).
  exact O.
Defined.

(** X14: when the driver refuses eight attempts in a row, [NewConnect] does
    not return: the process is ended by [Fatalf], or, should [Fatalf] come
    back, [NewConnect] panics with the driver's last error.  No connection
    has been opened. *)
Theorem NewConnect_exhausted (cf : PgConfig) (w : World) :
  refusesNext defaultConnectionNumberOfRetries w ->
  exists e : error,
    driver w (length (sqlLog w) + 7) = Some e /\
    fst (NewConnect (Some cf) w)
      = (if fatalExits w then Exits else Panics e) /\
    attempts (snd (NewConnect (Some cf) w)) = attempts w + 8 /\
    opened (snd (NewConnect (Some cf) w)) = opened w.
Proof.
  intro R. unfold NewConnect, Open.
  destruct (OpenLoop_exhausted (defaultConnectionNumberOfRetries - 1) cf
              FromDefaultContext w R) as (db & e & w5 & E & D & A & O & _).
  exists e. split; [exact D|]. rewrite E.
  destruct (fatalExits w); cbn [fst snd]; repeat split; assumption.
Qed.

Lemma NewConnect_exhausted_witness :
  refusesNext defaultConnectionNumberOfRetries refusing /\
  fst (NewConnect (Some sampleConfig) refusing) = Panics connectionLost.
Proof.
  assert (R : refusesNext defaultConnectionNumberOfRetries refusing)
    by (intros j Hj; discriminate).
  split; [exact R|].
  destruct (NewConnect_exhausted sampleConfig refusing R) as (e & D & E & _).
  rewrite E. cbn [fatalExits refusing]. cbn in D. inversion D. reflexivity.
Defined.

(* ------------------------------------------------------------------ *)
(** ** Further properties of the holder singleton *)

(** X15: a first call of [NewDBHolderInstance] that panics is final: the
    [sync.Once] is marked, so every later call, whatever its configuration,
    returns the package variable as it was (nil in a process that has just
    started) and never tries to connect. *)
Theorem NewDBHolderInstance_failure_is_final
  (config : option PgConfig) (p p1 : Process) (v : error) :
  Package.onceDBHolder (pkg p) = false ->
  NewDBHolderInstance config p = (Panics v, p1) ->
  holders p1 = holders p /\
  forall configs : list (option PgConfig),
    instances configs p1
      = (map (fun _ => Returns (Package.dbHolder (pkg p))) configs, p1).
Proof.
  intros Honce H. unfold NewDBHolderInstance, onceDo in H. rewrite Honce in H.
  destruct (NewConnect config (world p)) as [[db|v'|] w1]; cbn in H;
    try discriminate H.
  inversion H; subst. split; [reflexivity|].
  intro configs. rewrite instances_done by reflexivity. reflexivity.
Qed.

Lemma NewDBHolderInstance_failure_is_final_witness :
  Package.onceDBHolder (pkg (start calm)) = false /\
  fst (NewDBHolderInstance None (start calm)) = Panics nilDereference /\
  fst (instances [Some sampleConfig; Some otherConfig]
         (snd (NewDBHolderInstance None (start calm))))
    = [Returns None; Returns None] /\
  sqlLog (world (snd (instances [Some sampleConfig; Some otherConfig]
                        (snd (NewDBHolderInstance None (start calm))))))
    = [].
Proof.
  split; [reflexivity|]. split; [reflexivity|].
  assert (E : NewDBHolderInstance None (start calm)
              = (Panics nilDereference,
                 snd (NewDBHolderInstance None (start calm))))
    by reflexivity.
  destruct (NewDBHolderInstance_failure_is_final None (start calm) _ _
              eq_refl E) as (_ & I).
  rewrite (I [Some sampleConfig; Some otherConfig]).
  split; reflexivity.
Defined.

(* ------------------------------------------------------------------ *)
(** ** Properties of [GetTransactionContext] *)

Lemma Value_beyond (extra ctx : Context) :
  Forall (fun kv => fst kv <> TransactionContextKey) extra ->
  Value (extra ++ ctx)%list TransactionContextKey
    = Value ctx TransactionContextKey.
Proof.
  intro F. induction F as [|[k v] extra Hk F IH]; [reflexivity|].
  cbn [app Value]. cbn [fst] in Hk.
  destruct k as [s|s]; cbn [TransactionContextKey key_eqb]; [|exact IH].
  destruct (String.eqb "TransactionContextKey" s) eqn:E; [|exact IH].
  apply String.eqb_eq in E. subst s. contradiction Hk. reflexivity.
Qed.

Lemma NewDBHolderInstance_marks (config : option PgConfig) (p p1 : Process)
  (h : option nat) :
  NewDBHolderInstance config p = (Returns h, p1) ->
  Package.onceDBHolder (pkg p1) = true /\ Package.dbHolder (pkg p1) = h.
Proof.
  intro H. destruct (Package.onceDBHolder (pkg p)) eqn:O.
  - rewrite (NewDBHolderInstance_done config p O) in H.
    inversion H; subst. split; [exact O | reflexivity].
  - destruct (NewDBHolderInstance_first config p p1 h O H)
      as (db & w1 & _ & _ & Hp).
    subst p1. split; reflexivity.
Qed.

Section PropagationFacts.

Variable FromContext : Context -> Logger.

(** What a call that makes a context leaves behind. *)
Lemma GetTransactionContext_unbound
  (ctx : Context) (g : Program) :
  (forall i, Value ctx TransactionContextKey <> Some (implements i)) ->
  GetTransactionContext FromContext ctx g =
    match NewDBHolderInstance (Package.DbConfig (pkg (proc g))) (proc g) with
    | (Returns h, p1) =>
        (Returns (ownContext (length (txObjects g)),
                  WithValue ctx TransactionContextKey
                    (implements (ownContext (length (txObjects g))))),
         mkProgram p1 (txObjects g ++ [mkTxObject (FromContext ctx) h]))
    | (Panics v, p1) => (Panics v, mkProgram p1 (txObjects g))
    | (Exits, p1) => (Exits, mkProgram p1 (txObjects g))
    end.
Proof.
  intro N. unfold GetTransactionContext, getTransactionContextWithDBHolder.
  destruct (Value ctx TransactionContextKey) as [[i|s]|]; try reflexivity.
  contradiction (N i). reflexivity.
Qed.

Lemma GetTransactionContext_binds
  (ctx ctx1 : Context) (g g1 : Program) (i : ITransactionContext) :
  GetTransactionContext FromContext ctx g = (Returns (i, ctx1), g1) ->
  Value ctx1 TransactionContextKey = Some (implements i).
Proof.
  unfold GetTransactionContext, getTransactionContextWithDBHolder.
  destruct (Value ctx TransactionContextKey) as [[j|s]|] eqn:V;
    try (intro H; inversion H; subst; exact V);
    destruct (NewDBHolderInstance _ (proc g)) as [[h|v|] p1];
    intro H; try discriminate H; inversion H; subst; reflexivity.
Qed.

End PropagationFacts.

(** X16: the context that [GetTransactionContext] returns carries the
    transaction context along: every later call that is given this context,
    or one derived from it by values under other keys, gets the same
    transaction context back, with the context it was given, and changes
    nothing in the program (no holder is asked for, nothing is made). *)
Theorem GetTransactionContext_is_shared
  (F F' : Context -> Logger) (ctx ctx1 extra : Context) (g g1 g2 : Program)
  (i : ITransactionContext) :
  GetTransactionContext F ctx g = (Returns (i, ctx1), g1) ->
  Forall (fun kv => fst kv <> TransactionContextKey) extra ->
  GetTransactionContext F' (extra ++ ctx1)%list g2
    = (Returns (i, (extra ++ ctx1)%list), g2).
Proof.
  intros H E. apply GetTransactionContext_binds in H.
  unfold GetTransactionContext, getTransactionContextWithDBHolder.
  rewrite (Value_beyond extra ctx1 E), H. reflexivity.
Qed.

(** X17: a context in which no transaction context is bound (nothing under
    the key, or a value that is not one) gets a new one when the holder
    singleton is returned: at a new address, with the logger of the context
    and the singleton's holder pointer, bound in a new context in front of
    the given one.  If this call was the one to set up the singleton, the
    new transaction context is idle on the holder just made. *)
Theorem GetTransactionContext_makes_idle_context
  (F : Context -> Logger) (ctx ctx1 : Context) (g g1 : Program)
  (i : ITransactionContext) :
  (forall j, Value ctx TransactionContextKey <> Some (implements j)) ->
  GetTransactionContext F ctx g = (Returns (i, ctx1), g1) ->
  i = ownContext (length (txObjects g)) /\
  ctx1 = WithValue ctx TransactionContextKey (implements i) /\
  txObjects g1
    = (txObjects g
       ++ [mkTxObject (F ctx) (Package.dbHolder (pkg (proc g1)))])%list /\
  Package.onceDBHolder (pkg (proc g1)) = true /\
  (Package.onceDBHolder (pkg (proc g)) = false ->
   exists d : DatabaseHolder,
     contextAt g1 (length (txObjects g))
       = Some (newTransactionContext (F ctx) d) /\
     state (newTransactionContext (F ctx) d) = Idle /\
     isTx (dbConnection d) = false /\
     opened (world (proc g1)) = S (opened (world (proc g)))).
Proof.
  intros N H. rewrite (GetTransactionContext_unbound F ctx g N) in H.
  destruct (NewDBHolderInstance (Package.DbConfig (pkg (proc g))) (proc g))
    as [[h|v|] p1] eqn:I; try discriminate H.
  inversion H; subst. clear H.
  destruct (NewDBHolderInstance_marks _ _ _ _ I) as (M & Hh).
  cbn [proc txObjects]. rewrite Hh.
  split; [reflexivity|]. split; [reflexivity|]. split; [reflexivity|].
  split; [exact M|]. intro O.
  destruct (NewDBHolderInstance_first _ _ _ _ O I) as (db & w1 & L & Ha & Hp).
  destruct (OpenLoop_connected _ _ _ _ _ _ L)
    as (cf & _ & Ho & _ & _ & Ht & _ & _).
  exists (mkDatabaseHolder db).
  unfold contextAt. cbn [txObjects proc].
  rewrite nth_error_app2 by apply Nat.le_refl. rewrite Nat.sub_diag.
  cbn [nth_error objHolder objLogger]. clear Hh M. subst h p1.
  cbn [holders world].
  rewrite nth_error_app2 by apply Nat.le_refl. rewrite Nat.sub_diag.
  repeat split; assumption.
Qed.

Lemma GetTransactionContext_makes_idle_context_witness :
  (forall j, Value [(foreignKey "request-id", anyOther "42")]
               TransactionContextKey <> Some (implements j)) /\
  fst (GetTransactionContext (fun _ => 7)
         [(foreignKey "request-id", anyOther "42")]
         (configured (Some sampleConfig) calm))
    = Returns (ownContext 0,
               [(TransactionContextKey, implements (ownContext 0));
                (foreignKey "request-id", anyOther "42")]) /\
  contextAt (snd (GetTransactionContext (fun _ => 7)
                    [(foreignKey "request-id", anyOther "42")]
                    (configured (Some sampleConfig) calm))) 0
    = Some (newTransactionContext 7
              (mkDatabaseHolder
                 (mkDB 0 false None (Some 0) true 5%Z 60000000000%Z))).
Proof.
  assert (N : forall j, Value [(foreignKey "request-id", anyOther "42")]
                          TransactionContextKey <> Some (implements j))
    by (intros j H; discriminate H).
  assert (E : GetTransactionContext (fun _ => 7)
                [(foreignKey "request-id", anyOther "42")]
                (configured (Some sampleConfig) calm)
              = (Returns (ownContext 0,
                          [(TransactionContextKey, implements (ownContext 0));
                           (foreignKey "request-id", anyOther "42")]),
                 snd (GetTransactionContext (fun _ => 7)
                        [(foreignKey "request-id", anyOther "42")]
                        (configured (Some sampleConfig) calm))))
    by (vm_compute; reflexivity).
  split; [exact N|]. split; [rewrite E; reflexivity|].
  destruct (GetTransactionContext_makes_idle_context _ _ _ _ _ _ N E)
    as (_ & _ & _ & _ & X).
  destruct (X eq_refl) as (d & C & _).
  vm_compute. reflexivity.
Defined.

(** X18: the given context is not changed.  A caller that drops the
    returned context and asks again with the one it had gets a second
    transaction context, at another address, on the same holder; nothing is
    shared between the two. *)
Theorem GetTransactionContext_needs_the_returned_context
  (F F' : Context -> Logger) (ctx ctx1 : Context) (g g1 : Program)
  (i1 : ITransactionContext) :
  (forall j, Value ctx TransactionContextKey <> Some (implements j)) ->
  GetTransactionContext F ctx g = (Returns (i1, ctx1), g1) ->
  exists (i2 : ITransactionContext) (ctx2 : Context) (g2 : Program),
    GetTransactionContext F' ctx g1 = (Returns (i2, ctx2), g2) /\
    i2 <> i1 /\
    proc g2 = proc g1 /\
    exists o1 o2 : txObject,
      txObjects g2 = (txObjects g ++ [o1; o2])%list /\
      objHolder o1 = objHolder o2.
Proof.
  intros N H. rewrite (GetTransactionContext_unbound F ctx g N) in H.
  destruct (NewDBHolderInstance (Package.DbConfig (pkg (proc g))) (proc g))
    as [[h|v|] p1] eqn:I; try discriminate H.
  inversion H; subst. clear H.
  destruct (NewDBHolderInstance_marks _ _ _ _ I) as (M & Hh).
  rewrite (GetTransactionContext_unbound F' ctx _ N). cbn [proc txObjects].
  rewrite (NewDBHolderInstance_done _ p1 M), Hh.
  eexists. eexists. eexists. split; [reflexivity|]. split.
  - rewrite length_app. cbn [length]. intro E. inversion E. lia.
  - split; [reflexivity|].
    exists (mkTxObject (F ctx) h), (mkTxObject (F' ctx) h).
    rewrite <- app_assoc. split; reflexivity.
Qed.

Lemma GetTransactionContext_needs_the_returned_context_witness :
  (forall j, Value [] TransactionContextKey <> Some (implements j)) /\
  fst (GetTransactionContext (fun _ => 7) []
         (configured (Some sampleConfig) calm))
    = Returns (ownContext 0,
               [(TransactionContextKey, implements (ownContext 0))]) /\
  fst (GetTransactionContext (fun _ => 7) []
         (snd (GetTransactionContext (fun _ => 7) []
                 (configured (Some sampleConfig) calm))))
    = Returns (ownContext 1,
               [(TransactionContextKey, implements (ownContext 1))]).
Proof.
  assert (N : forall j, Value [] TransactionContextKey
                        <> Some (implements j))
    by (intros j H; discriminate H).
  assert (E : GetTransactionContext (fun _ => 7) []
                (configured (Some sampleConfig) calm)
              = (Returns (ownContext 0,
                          [(TransactionContextKey,
                            implements (ownContext 0))]),
                 snd (GetTransactionContext (fun _ => 7) []
                        (configured (Some sampleConfig) calm))))
    by (vm_compute; reflexivity).
  split; [exact N|]. split; [rewrite E; reflexivity|].
  destruct (GetTransactionContext_needs_the_returned_context
              (fun _ => 7) (fun _ => 7) _ _ _ _ _ N E)
    as (i2 & ctx2 & g2 & E2 & _).
  rewrite E2. vm_compute in E2. inversion E2. reflexivity.
Defined.

(** X19: with the package variable [DbConfig] left nil and the holder not
    yet set up, the first [GetTransactionContext] on a context that binds no
    transaction context panics on the nil configuration, before the driver
    is asked anything and without making a context.  The [sync.Once] is
    marked by then: a program that recovers gets, from every later call of
    this kind, a transaction context whose holder pointer is the package
    variable as it was, nil if it was never set. *)
Theorem GetTransactionContext_without_DbConfig
  (F F' : Context -> Logger) (ctx ctx' : Context) (g : Program) :
  Package.DbConfig (pkg (proc g)) = None ->
  Package.onceDBHolder (pkg (proc g)) = false ->
  (forall j, Value ctx TransactionContextKey <> Some (implements j)) ->
  (forall j, Value ctx' TransactionContextKey <> Some (implements j)) ->
  fst (GetTransactionContext F ctx g) = Panics nilDereference /\
  txObjects (snd (GetTransactionContext F ctx g)) = txObjects g /\
  sqlLog (world (proc (snd (GetTransactionContext F ctx g))))
    = sqlLog (world (proc g)) /\
  exists g2 : Program,
    GetTransactionContext F' ctx' (snd (GetTransactionContext F ctx g))
      = (Returns (ownContext (length (txObjects g)),
                  WithValue ctx' TransactionContextKey
                    (implements (ownContext (length (txObjects g))))),
         g2) /\
    nth_error (txObjects g2) (length (txObjects g))
      = Some (mkTxObject (F' ctx') (Package.dbHolder (pkg (proc g)))) /\
    (Package.dbHolder (pkg (proc g)) = None ->
     contextAt g2 (length (txObjects g)) = None).
Proof.
  intros Hc Ho N N'.
  assert (P : NewDBHolderInstance None (proc g)
              = (Panics nilDereference,
                 mkProcess
                   (Package.mkVars (Package.dbHolder (pkg (proc g))) true
                      (Package.DbConfig (pkg (proc g))))
                   (holders (proc g)) (world (proc g)))).
  { unfold NewDBHolderInstance, onceDo. rewrite Ho. reflexivity. }
  rewrite (GetTransactionContext_unbound F ctx g N), Hc, P.
  cbn [fst snd proc txObjects world].
  split; [reflexivity|]. split; [reflexivity|]. split; [reflexivity|].
  rewrite (GetTransactionContext_unbound F' ctx' _ N').
  cbn [proc txObjects pkg Package.DbConfig].
  rewrite NewDBHolderInstance_done by reflexivity.
  cbn [pkg Package.dbHolder].
  eexists. split; [reflexivity|]. cbn [txObjects]. split.
  - rewrite nth_error_app2 by apply Nat.le_refl. rewrite Nat.sub_diag.
    reflexivity.
  - intro Hn. unfold contextAt. cbn [txObjects].
    rewrite nth_error_app2 by apply Nat.le_refl. rewrite Nat.sub_diag.
    cbn [nth_error objHolder]. rewrite Hn. reflexivity.
Qed.

Lemma GetTransactionContext_without_DbConfig_witness :
  Package.DbConfig (pkg (proc (configured None calm))) = None /\
  Package.onceDBHolder (pkg (proc (configured None calm))) = false /\
  fst (GetTransactionContext (fun _ => 7) [] (configured None calm))
    = Panics nilDereference /\
  fst (GetTransactionContext (fun _ => 7) []
         (snd (GetTransactionContext (fun _ => 7) []
                 (configured None calm))))
    = Returns (ownContext 0,
               [(TransactionContextKey, implements (ownContext 0))]) /\
  contextAt (snd (GetTransactionContext (fun _ => 7) []
                    (snd (GetTransactionContext (fun _ => 7) []
                            (configured None calm))))) 0 = None.
Proof.
  assert (N : forall j, Value [] TransactionContextKey
                        <> Some (implements j))
    by (intros j H; discriminate H).
  split; [reflexivity|]. split; [reflexivity|].
  destruct (GetTransactionContext_without_DbConfig (fun _ => 7) (fun _ => 7)
              [] [] (configured None calm) eq_refl eq_refl N N)
    as (P & _ & _ & g2 & E & _ & C).
  split; [exact P|]. rewrite E. cbn [fst snd]. split; [reflexivity|].
  exact (C eq_refl).
Defined.

Lemma GetTransactionContext_is_shared_witness :
  Forall (fun kv : key * value => fst kv <> TransactionContextKey)
    [(foreignKey "request-id", anyOther "42")] /\
  fst (GetTransactionContext (fun _ => 7) []
         (configured (Some sampleConfig) calm))
    = Returns (ownContext 0,
               [(TransactionContextKey, implements (ownContext 0))]) /\
  GetTransactionContext (fun _ => 9)
    [(foreignKey "request-id", anyOther "42");
     (TransactionContextKey, implements (ownContext 0))]
    (configured None calm)
    = (Returns (ownContext 0,
                [(foreignKey "request-id", anyOther "42");
                 (TransactionContextKey, implements (ownContext 0))]),
       configured None calm).
Proof.
  assert (X : Forall (fun kv : key * value => fst kv <> TransactionContextKey)
                [(foreignKey "request-id", anyOther "42")]).
  { constructor; [discriminate | constructor]. }
  assert (E : GetTransactionContext (fun _ => 7) []
                (configured (Some sampleConfig) calm)
              = (Returns (ownContext 0,
                          [(TransactionContextKey,
                            implements (ownContext 0))]),
                 snd (GetTransactionContext (fun _ => 7) []
                        (configured (Some sampleConfig) calm))))
    by (vm_compute; reflexivity).
  split; [exact X|]. split; [rewrite E; reflexivity|].
  exact (GetTransactionContext_is_shared (fun _ => 7) (fun _ => 9) _ _ _ _ _
           (configured None calm) _ E X).
Defined.

(* ------------------------------------------------------------------ *)
(** ** What a reachable context holds *)

(** X20: in a context a program can hold, the handle is there only between
    a [Begin] and the [Commit] or [Rollback] that ends it: a context that
    has been rolled back holds neither handle nor identifier, and a handle
    that is held was made by the driver's begin, so that [Provider] on an
    active context gives a transaction and never the holder's connection. *)
Theorem reachable_context_holds_a_transaction_or_nothing
  (c : transactionContext) (w : World) :
  reachable c ->
  (rollbacked c = true -> tx c = None /\ transactionUUID c = None) /\
  (state c = Active ->
   exists t : DB,
     fst (Provider c w) = Some t /\ tx c = Some t /\ isTx t = true).
Proof.
  intro R. split.
  - intro F. pose proof (reachable_rollbacked_disposed c R F) as I.
    pose proof (reachable_paired c R) as P.
    unfold inTransaction in I.
    destruct P as [[Pt Pu]|[Pt Pu]]; [split; assumption|].
    destruct (tx c), (transactionUUID c); try discriminate; congruence.
  - intro A. apply state_Active in A. destruct A as [Hr Hi].
    pose proof Hi as Hi'. apply inTransaction_spec in Hi'.
    destruct Hi' as (t & o & Ht & _). exists t.
    unfold Provider. rewrite Hr, Hi, Ht.
    split; [reflexivity|]. split; [reflexivity|].
    exact (reachable_tx_isTx c t R Ht).
Qed.

Lemma reachable_context_holds_a_transaction_or_nothing_witness :
  reachable (begun calm) /\
  state (begun calm) = Active /\
  exists t : DB,
    fst (Provider (begun calm) calm) = Some t /\
    tx (begun calm) = Some t /\ isTx t = true.
Proof.
  split; [exact (begun_reachable calm)|]. split; [reflexivity|].
  exact (proj2 (reachable_context_holds_a_transaction_or_nothing
                  (begun calm) calm (begun_reachable calm)) eq_refl).
Defined.

(* ------------------------------------------------------------------ *)
(** ** Invariant A with the holder as a pointer *)

(** With a holder behind the pointer, every method returns, and does what
    the method of the first model does. *)
Lemma pointer_methods_agree (op : call) (c : transactionContext) (w : World) :
  Ptr.invoke op (withHolderPointer c) w =
    (Returns (fst (fst (invoke op c w))),
     withHolderPointer (after op c w),
     snd (invoke op c w)).
Proof.
  destruct c as [l h t u r]. unfold after, invoke, Ptr.invoke, withHolderPointer.
  destruct op.
  - unfold Begin, Ptr.Begin, NewRandom, inTransaction, Ptr.inTransaction,
      wasRollbacked, Ptr.wasRollbacked, gormBegin, driverCall.
    cbn. destruct r; [reflexivity|].
    destruct (entropy w (drawn w)); cbn; [|reflexivity].
    destruct t, u; cbn; try reflexivity;
      destruct (driver w (length (sqlLog w))); reflexivity.
  - unfold Provider, Ptr.Provider, inTransaction, Ptr.inTransaction,
      wasRollbacked, Ptr.wasRollbacked, providerWithoutTransaction,
      Ptr.providerWithoutTransaction.
    cbn. destruct r; [reflexivity|]. destruct t, u; reflexivity.
  - unfold Commit, Ptr.Commit, inTransaction, Ptr.inTransaction,
      wasRollbacked, Ptr.wasRollbacked, gormCommit, driverCall, dispose,
      Ptr.dispose.
    cbn. destruct r; [reflexivity|].
    destruct t, u; cbn; try reflexivity.
    destruct (negb (N.eqb u id)); cbn; [reflexivity|].
    destruct (driver w (length (sqlLog w))); reflexivity.
  - unfold Rollback, Ptr.Rollback, inTransaction, Ptr.inTransaction,
      wasRollbacked, Ptr.wasRollbacked, gormRollback, driverCall,
      disposeAfterRollback, Ptr.disposeAfterRollback, dispose, Ptr.dispose.
    cbn. destruct r; [reflexivity|].
    destruct t, u; cbn; try reflexivity;
      destruct (driver w (length (sqlLog w))); reflexivity.
Qed.

(** No call changes the holder pointer. *)
Lemma pointer_dbHolder_after (op : call) (c : Ptr.transactionContext)
  (w : World) :
  Ptr.dbHolder (Ptr.after op c w) = Ptr.dbHolder c.
Proof.
  destruct c as [l h t u r]. unfold Ptr.after, Ptr.invoke. destruct op.
  - unfold Ptr.Begin, NewRandom, Ptr.inTransaction, Ptr.wasRollbacked,
      gormBegin, driverCall.
    cbn. destruct r; [reflexivity|].
    destruct (entropy w (drawn w)); cbn; [|reflexivity].
    destruct t, u, h; cbn; try reflexivity;
      destruct (driver w (length (sqlLog w))); reflexivity.
  - destruct (Ptr.Provider _ w) as [[d|v|] w']; reflexivity.
  - unfold Ptr.Commit, Ptr.inTransaction, Ptr.wasRollbacked, gormCommit,
      driverCall, Ptr.dispose.
    cbn. destruct r; [reflexivity|].
    destruct t, u; cbn; try reflexivity.
    destruct (negb (N.eqb u id)); cbn; [reflexivity|].
    destruct (driver w (length (sqlLog w))); reflexivity.
  - unfold Ptr.Rollback, Ptr.inTransaction, Ptr.wasRollbacked, gormRollback,
      driverCall, Ptr.disposeAfterRollback, Ptr.dispose.
    cbn. destruct r; [reflexivity|].
    destruct t, u; cbn; try reflexivity;
      destruct (driver w (length (sqlLog w))); reflexivity.
Qed.

Lemma pointer_dbHolder_evolves (c c' : Ptr.transactionContext) :
  Ptr.evolves c c' -> Ptr.dbHolder c' = Ptr.dbHolder c.
Proof.
  intro E. induction E as [|c' op w E IH]; [reflexivity|].
  rewrite pointer_dbHolder_after. exact IH.
Qed.

(** With a holder behind the pointer, a call returns and keeps
    invariant A. *)
Lemma pointer_paired_after (op : call) (c : Ptr.transactionContext)
  (w : World) :
  Ptr.dbHolder c <> None -> Ptr.paired c ->
  Ptr.paired (Ptr.after op c w) /\
  exists r : reply, fst (fst (Ptr.invoke op c w)) = Returns r.
Proof.
  intros Hh P. destruct c as [l h t u r]. cbn in Hh.
  destruct h as [h|]; [clear Hh | contradiction Hh; reflexivity].
  assert (Q : (t = None /\ u = None) \/ (exists t0 u0, t = Some t0 /\ u = Some u0)).
  { destruct P as [[Pt Pu]|[Pt Pu]]; cbn in Pt, Pu; [left; split; assumption|].
    right. destruct t as [t0|], u as [u0|]; try congruence.
    exists t0, u0. split; reflexivity. }
  clear P.
  assert (Yes : forall (l0 : Logger) (t0 : DB) (u0 : UUID) (b : bool),
            Ptr.paired (Ptr.mkTransactionContext l0 (Some h) (Some t0)
                          (Some u0) b)).
  { intros. right. split; discriminate. }
  assert (No : forall (l0 : Logger) (b : bool),
            Ptr.paired (Ptr.mkTransactionContext l0 (Some h) None None b)).
  { intros. left. split; reflexivity. }
  unfold Ptr.after, Ptr.invoke.
  destruct Q as [[-> ->]|(t0 & u0 & -> & ->)]; destruct op.
  - unfold Ptr.Begin, NewRandom, Ptr.inTransaction, Ptr.wasRollbacked,
      gormBegin, driverCall.
    cbn. destruct r; [split; [apply No | eexists; reflexivity]|].
    destruct (entropy w (drawn w)); cbn;
      [|split; [apply No | eexists; reflexivity]].
    destruct (driver w (length (sqlLog w))); cbn;
      (split; [apply Yes | eexists; reflexivity]).
  - unfold Ptr.Provider, Ptr.inTransaction, Ptr.wasRollbacked,
      Ptr.providerWithoutTransaction.
    cbn. destruct r; cbn; (split; [apply No | eexists; reflexivity]).
  - unfold Ptr.Commit, Ptr.inTransaction, Ptr.wasRollbacked.
    cbn. destruct r; cbn; (split; [apply No | eexists; reflexivity]).
  - unfold Ptr.Rollback, Ptr.inTransaction, Ptr.wasRollbacked.
    cbn. destruct r; cbn; (split; [apply No | eexists; reflexivity]).
  - unfold Ptr.Begin, NewRandom, Ptr.inTransaction, Ptr.wasRollbacked.
    cbn. destruct r; [split; [apply Yes | eexists; reflexivity]|].
    destruct (entropy w (drawn w)); cbn;
      (split; [apply Yes | eexists; reflexivity]).
  - unfold Ptr.Provider, Ptr.inTransaction, Ptr.wasRollbacked.
    cbn. destruct r; cbn; (split; [apply Yes | eexists; reflexivity]).
  - unfold Ptr.Commit, Ptr.inTransaction, Ptr.wasRollbacked, gormCommit,
      driverCall, Ptr.dispose.
    cbn. destruct r; [split; [apply Yes | eexists; reflexivity]|].
    destruct (negb (N.eqb u0 id)); cbn;
      [split; [apply Yes | eexists; reflexivity]|].
    destruct (driver w (length (sqlLog w))); cbn;
      (split; [apply No | eexists; reflexivity]).
  - unfold Ptr.Rollback, Ptr.inTransaction, Ptr.wasRollbacked, gormRollback,
      driverCall, Ptr.disposeAfterRollback, Ptr.dispose.
    cbn. destruct r; [split; [apply Yes | eexists; reflexivity]|].
    destruct (driver w (length (sqlLog w))); cbn;
      (split; [apply No | eexists; reflexivity]).
Qed.

Lemma pointer_paired_evolves (c c' : Ptr.transactionContext) :
  Ptr.dbHolder c <> None -> Ptr.paired c -> Ptr.evolves c c' -> Ptr.paired c'.
Proof.
  intros Hh P E. induction E as [|c' op w E IH]; [exact P|].
  apply pointer_paired_after; [|exact IH].
  rewrite (pointer_dbHolder_evolves c c' E). exact Hh.
Qed.

(** C5, as stated, fails.  With [DbConfig] left nil the first
    [GetTransactionContext] panics; the next one hands out a transaction
    context whose holder pointer is nil.  Its [Begin] stores the identifier
    (line 121) and then panics on the nil holder (line 122): once the panic
    is recovered, the context holds an identifier and no handle. *)
Lemma Begin_on_nil_holder_breaks_pairing :
  pointerContextAt
    (snd (GetTransactionContext (fun _ => 7) []
            (snd (GetTransactionContext (fun _ => 7) []
                    (configured None calm))))) 0
    = Some (Ptr.newTransactionContext 7 None) /\
  Ptr.reachable (Ptr.after CallBegin (Ptr.newTransactionContext 7 None) calm) /\
  fst (fst (Ptr.Begin (Ptr.newTransactionContext 7 None) calm))
    = Panics nilDereference /\
  Ptr.transactionUUID
    (Ptr.after CallBegin (Ptr.newTransactionContext 7 None) calm)
    = Some 1%N /\
  Ptr.tx (Ptr.after CallBegin (Ptr.newTransactionContext 7 None) calm)
    = None /\
  ~ Ptr.paired (Ptr.after CallBegin (Ptr.newTransactionContext 7 None) calm).
Proof.
  split; [reflexivity|]. split.
  { exists 7, None. apply Ptr.evolves_call. apply Ptr.evolves_here. }
  split; [reflexivity|]. split; [reflexivity|]. split; [reflexivity|].
  intros [[_ U]|[T _]].
  - vm_compute in U. discriminate U.
  - apply T. reflexivity.
Qed.

(** C5, amended: in every transaction context whose holder pointer is not
    nil, after any calls of [Begin], [Provider], [Commit] and [Rollback] on
    a context made by [newTransactionContext], the handle and the owning
    identifier are both there or both absent; whichever call comes next
    returns and keeps it so. *)
Theorem handle_and_identifier_paired_behind_holder
  (c : Ptr.transactionContext) :
  Ptr.reachable c -> Ptr.dbHolder c <> None ->
  Ptr.paired c /\
  forall (op : call) (w : World),
    Ptr.paired (Ptr.after op c w) /\
    exists r : reply, fst (fst (Ptr.invoke op c w)) = Returns r.
Proof.
  intros (l & h & E) Hh.
  assert (H0 : Ptr.dbHolder (Ptr.newTransactionContext l h) <> None).
  { rewrite <- (pointer_dbHolder_evolves _ _ E). exact Hh. }
  assert (P : Ptr.paired c).
  { apply (pointer_paired_evolves (Ptr.newTransactionContext l h)).
    - exact H0.
    - left. split; reflexivity.
    - exact E. }
  split; [exact P|]. intros op w. apply pointer_paired_after; assumption.
Qed.

Lemma pointer_begun_reachable (w : World) :
  Ptr.reachable
    (Ptr.after CallBegin (Ptr.newTransactionContext 0 (Some sampleHolder)) w).
Proof.
  exists 0, (Some sampleHolder). apply Ptr.evolves_call. apply Ptr.evolves_here.
Defined.

(** A context whose [Begin] the driver has refused. *)
Lemma handle_and_identifier_paired_behind_holder_witness :
  Ptr.reachable
    (Ptr.after CallBegin (Ptr.newTransactionContext 0 (Some sampleHolder))
       (failsAt 0)) /\
  Ptr.dbHolder
    (Ptr.after CallBegin (Ptr.newTransactionContext 0 (Some sampleHolder))
       (failsAt 0)) <> None /\
  Ptr.paired
    (Ptr.after CallBegin (Ptr.newTransactionContext 0 (Some sampleHolder))
       (failsAt 0)) /\
  forall (op : call) (w : World),
    Ptr.paired
      (Ptr.after op
         (Ptr.after CallBegin (Ptr.newTransactionContext 0 (Some sampleHolder))
            (failsAt 0)) w) /\
    exists r : reply,
      fst (fst (Ptr.invoke op
                  (Ptr.after CallBegin
                     (Ptr.newTransactionContext 0 (Some sampleHolder))
                     (failsAt 0)) w)) = Returns r.
Proof.
  assert (Hh : Ptr.dbHolder
                 (Ptr.after CallBegin
                    (Ptr.newTransactionContext 0 (Some sampleHolder))
                    (failsAt 0)) <> None)
    by (vm_compute; discriminate).
  split; [exact (pointer_begun_reachable (failsAt 0))|].
  split; [exact Hh|].
  exact (handle_and_identifier_paired_behind_holder _
           (pointer_begun_reachable (failsAt 0)) Hh).
Defined.
